(** * Switch2GO eye-gaze engine: Kalman smoothing, gaze combination and calibration

    A shallow embedding of the numerical core of
    [eye_gaze_tracker/gaze_tracker.py], [eye_gaze_tracker/calibration.py]
    and [eye_gaze_tracker/visual_assessment.py].

    Numbers.  Python floats and NumPy arrays of floats are idealised as
    exact rationals ([Q]): every arithmetic operation is the exact one
    and a dtype conversion such as [np.array(m, dtype=np.float32)] is
    the identity.  Python [int]s are [Z].

    NumPy.  Array operations that are rational (matrix product,
    transpose, mean, clip, dot) are written out.  [np.sqrt],
    [np.linalg.inv] and [np.linalg.lstsq] belong to NumPy, not to this
    repository; they are Section variables, so every statement holds
    for whatever these functions compute.  Exact instances are given
    at the end of the definitions for running the model.

    Effects.  Objects are records, a method is a function from the
    object to the mutated object and the returned value.  A method that
    may raise returns a [result]; the mutated object is returned also
    when it raises, as the mutations made before a [raise] stay. *)

From Stdlib Require Import String DecimalString QArith Qabs ZArith List Bool Lia Lqa.
Import ListNotations.

Local Open Scope Q_scope.

(** ** Python values *)

Inductive exn : Type :=
| LinAlgError
| ValueError
| IndexError
| ZeroDivisionError.

Inductive result (A : Type) : Type :=
| Ok (a : A)
| Raise (e : exn).

Arguments Ok {A} a.
Arguments Raise {A} e.

Definition bind {A B : Type} (r : result A) (k : A -> result B) : result B :=
  match r with
  | Ok a => k a
  | Raise e => Raise e
  end.

Notation "'do' x <- r ; k" := (bind r (fun x => k))
  (at level 10, x name, r at level 100, k at level 200).

(** [int(x)] on a float: truncation toward zero. *)
Definition py_int (x : Q) : Z := Z.quot (Qnum x) (Zpos (Qden x)).

(** [x < y] and [x <= y] on floats. *)
Definition Qleb (x y : Q) : bool := Qle_bool x y.
Definition Qltb (x y : Q) : bool := negb (Qle_bool y x).

(** [max(a, b)] and [min(a, b)] on two floats: the first argument
    unless the second is strictly greater (smaller). *)
Definition py_max (a b : Q) : Q := if Qltb a b then b else a.
Definition py_min (a b : Q) : Q := if Qltb b a then b else a.

(** [a // b] and [a % b] on two [int]s. *)
Definition py_floordiv (a b : Z) : result Z :=
  if Z.eqb b 0 then Raise ZeroDivisionError else Ok (a / b)%Z.
Definition py_mod (a b : Z) : result Z :=
  if Z.eqb b 0 then Raise ZeroDivisionError else Ok (a mod b)%Z.

(** [range(n)] *)
Definition py_range (n : Z) : list Z := map Z.of_nat (seq 0 (Z.to_nat n)).

(** [str(n)] of an [int], as an f-string prints it. *)
Definition py_str_int (n : Z) : string := NilZero.string_of_int (Z.to_int n).

(** [seq[i]]: [IndexError] past the end (only non-negative indices occur). *)
Definition py_index {A : Type} (l : list A) (i : nat) : result A :=
  match nth_error l i with
  | Some a => Ok a
  | None => Raise IndexError
  end.

(** [try: body  except (IndexError, AttributeError): return handler].
    Landmarks are records with fields [x] and [y], so no attribute is
    ever missing and [IndexError] is the only exception caught. *)
Definition try_except_IndexError {A : Type} (body : result A) (handler : A) : result A :=
  match body with
  | Ok a => Ok a
  | Raise IndexError => Ok handler
  | Raise e => Raise e
  end.

(** ** NumPy arrays *)

Definition vector : Type := list Q.
Definition matrix : Type := list (list Q).

(** A length-2 array [[x, y]]. *)
Definition Vec2 : Type := (Q * Q)%type.

Definition vec_of (m : Vec2) : vector := [fst m; snd m].

Module Np.

Definition sum (v : vector) : Q := fold_right Qplus 0 v.

(** [np.mean(v)] of a 1-D array. *)
Definition mean (v : vector) : Q := sum v / inject_Z (Z.of_nat (length v)).

(** [np.mean(samples, axis=0)] of a list of length-2 arrays. *)
Definition mean_axis0 (samples : list Vec2) : Vec2 :=
  (mean (map fst samples), mean (map snd samples)).

Definition maximum (a b : Q) : Q := if Qle_bool a b then b else a.
Definition minimum (a b : Q) : Q := if Qle_bool a b then a else b.

(** [np.clip(x, lo, hi)] is [minimum(maximum(x, lo), hi)]. *)
Definition clip (x lo hi : Q) : Q := minimum (maximum x lo) hi.

Definition vdot (u v : vector) : Q :=
  sum (map (fun p => fst p * snd p) (combine u v)).

(** [np.dot(u, v)] of two 1-D arrays: [ValueError] when shapes differ. *)
Definition dot (u v : vector) : result Q :=
  if Nat.eqb (length u) (length v) then Ok (vdot u v) else Raise ValueError.

Definition vadd (u v : vector) : vector :=
  map (fun p => fst p + snd p) (combine u v).
Definition vsub (u v : vector) : vector :=
  map (fun p => fst p - snd p) (combine u v).

Definition zeros (n : nat) : vector := repeat 0 n.

Definition eye (n : nat) : matrix :=
  map (fun i => map (fun j => if Nat.eqb i j then 1 else 0) (seq 0 n)) (seq 0 n).

(** [M * c] with a scalar [c]. *)
Definition mscale (M : matrix) (c : Q) : matrix := map (map (fun x => x * c)) M.

Definition madd (A B : matrix) : matrix :=
  map (fun p => vadd (fst p) (snd p)) (combine A B).
Definition msub (A B : matrix) : matrix :=
  map (fun p => vsub (fst p) (snd p)) (combine A B).

Definition column (j : nat) (M : matrix) : vector := map (fun row => nth j row 0) M.

(** [M.T] *)
Definition transpose (M : matrix) : matrix :=
  match M with
  | [] => []
  | r :: _ => map (fun j => column j M) (seq 0 (length r))
  end.

(** [A @ v] and [A @ B] *)
Definition matvec (A : matrix) (v : vector) : vector := map (fun row => vdot row v) A.
Definition matmul (A B : matrix) : matrix :=
  map (fun row => map (fun col => vdot row col) (transpose B)) A.

End Np.

(** [a[:2]] of the state array, and [a[:2] = m]. *)
Definition position (st : vector) : Vec2 := (nth 0 st 0, nth 1 st 0).
Definition assign_position (st : vector) (m : Vec2) : vector :=
  fst m :: snd m :: skipn 2 st.

(** ** gaze_tracker.py: KalmanFilter2D *)

Module KalmanFilter2D.

Record t : Type := mk {
  state : vector;
  F : matrix;
  H : matrix;
  base_process_noise : Q;
  base_measurement_noise : Q;
  Qn : matrix;
  R : matrix;
  P : matrix;
  initialized : bool
}.

Definition F_cv : matrix :=
  [[1; 0; 1; 0];
   [0; 1; 0; 1];
   [0; 0; 1; 0];
   [0; 0; 0; 1]].

Definition H_pos : matrix :=
  [[1; 0; 0; 0];
   [0; 1; 0; 0]].

(** [__init__] *)
Definition init (process_noise measurement_noise : Q) : t :=
  {| state := Np.zeros 4;
     F := F_cv;
     H := H_pos;
     base_process_noise := process_noise;
     base_measurement_noise := measurement_noise;
     Qn := Np.mscale (Np.eye 4) process_noise;
     R := Np.mscale (Np.eye 2) measurement_noise;
     P := Np.eye 4;
     initialized := false |}.

Definition with_state (kf : t) (st : vector) : t :=
  mk st (F kf) (H kf) (base_process_noise kf) (base_measurement_noise kf)
     (Qn kf) (R kf) (P kf) (initialized kf).
Definition with_P (kf : t) (p : matrix) : t :=
  mk (state kf) (F kf) (H kf) (base_process_noise kf) (base_measurement_noise kf)
     (Qn kf) (R kf) p (initialized kf).
Definition with_initialized (kf : t) (b : bool) : t :=
  mk (state kf) (F kf) (H kf) (base_process_noise kf) (base_measurement_noise kf)
     (Qn kf) (R kf) (P kf) b.

Definition predict (kf : t) : t * Vec2 :=
  if negb (initialized kf) then (kf, position (state kf))
  else
    let kf1 := with_state kf (Np.matvec (F kf) (state kf)) in
    let kf2 :=
      with_P kf1
        (Np.madd (Np.matmul (Np.matmul (F kf1) (P kf1)) (Np.transpose (F kf1)))
                 (Qn kf1)) in
    (kf2, position (state kf2)).

Definition reset (kf : t) : t :=
  with_initialized (with_P (with_state kf (Np.zeros 4)) (Np.eye 4)) false.

Section WithNumpy.

Variable np_sqrt : Q -> Q.
Variable np_linalg_inv : matrix -> option matrix.

Definition update (kf : t) (measurement : Vec2) : t * result Vec2 :=
  if negb (initialized kf) then
    let kf1 := with_state kf (assign_position (state kf) measurement) in
    (with_initialized kf1 true, Ok measurement)
  else
    let kf1 := fst (predict kf) in
    let S := Np.madd (Np.matmul (Np.matmul (H kf1) (P kf1)) (Np.transpose (H kf1)))
                     (R kf1) in
    match np_linalg_inv S with
    | None => (kf1, Raise LinAlgError)
    | Some S_inv =>
        let K := Np.matmul (Np.matmul (P kf1) (Np.transpose (H kf1))) S_inv in
        let innovation := Np.vsub (vec_of measurement) (Np.matvec (H kf1) (state kf1)) in
        let kf2 := with_state kf1 (Np.vadd (state kf1) (Np.matvec K innovation)) in
        let kf3 :=
          with_P kf2 (Np.matmul (Np.msub (Np.eye 4) (Np.matmul K (H kf2))) (P kf2)) in
        (kf3, Ok (position (state kf3)))
    end.

Definition get_velocity (kf : t) : Q :=
  np_sqrt (nth 2 (state kf) 0 * nth 2 (state kf) 0
           + nth 3 (state kf) 0 * nth 3 (state kf) 0).

End WithNumpy.

End KalmanFilter2D.

(** ** gaze_tracker.py: AdaptiveKalmanFilter2D *)

Module AdaptiveKalmanFilter2D.

Record t : Type := mk {
  state : vector;
  F : matrix;
  H : matrix;
  base_process_noise : Q;
  base_measurement_noise : Q;
  low_velocity_threshold : Q;
  high_velocity_threshold : Q;
  dwell_measurement_multiplier : Q;
  rapid_measurement_multiplier : Q;
  Qn : matrix;
  R : matrix;
  P : matrix;
  initialized : bool;
  velocity_history : list Q;
  velocity_history_size : nat;
  current_measurement_noise : Q;
  current_process_noise : Q
}.

(** [__init__] *)
Definition init (base_process_noise base_measurement_noise
                 low_velocity_threshold high_velocity_threshold
                 dwell_measurement_multiplier rapid_measurement_multiplier : Q) : t :=
  {| state := Np.zeros 4;
     F := KalmanFilter2D.F_cv;
     H := KalmanFilter2D.H_pos;
     base_process_noise := base_process_noise;
     base_measurement_noise := base_measurement_noise;
     low_velocity_threshold := low_velocity_threshold;
     high_velocity_threshold := high_velocity_threshold;
     dwell_measurement_multiplier := dwell_measurement_multiplier;
     rapid_measurement_multiplier := rapid_measurement_multiplier;
     Qn := Np.mscale (Np.eye 4) base_process_noise;
     R := Np.mscale (Np.eye 2) base_measurement_noise;
     P := Np.eye 4;
     initialized := false;
     velocity_history := [];
     velocity_history_size := 5;
     current_measurement_noise := base_measurement_noise;
     current_process_noise := base_process_noise |}.

Definition with_state (kf : t) (st : vector) : t :=
  mk st (F kf) (H kf) (base_process_noise kf) (base_measurement_noise kf)
     (low_velocity_threshold kf) (high_velocity_threshold kf)
     (dwell_measurement_multiplier kf) (rapid_measurement_multiplier kf)
     (Qn kf) (R kf) (P kf) (initialized kf) (velocity_history kf)
     (velocity_history_size kf) (current_measurement_noise kf) (current_process_noise kf).
Definition with_Qn (kf : t) (q : matrix) : t :=
  mk (state kf) (F kf) (H kf) (base_process_noise kf) (base_measurement_noise kf)
     (low_velocity_threshold kf) (high_velocity_threshold kf)
     (dwell_measurement_multiplier kf) (rapid_measurement_multiplier kf)
     q (R kf) (P kf) (initialized kf) (velocity_history kf)
     (velocity_history_size kf) (current_measurement_noise kf) (current_process_noise kf).
Definition with_R (kf : t) (r : matrix) : t :=
  mk (state kf) (F kf) (H kf) (base_process_noise kf) (base_measurement_noise kf)
     (low_velocity_threshold kf) (high_velocity_threshold kf)
     (dwell_measurement_multiplier kf) (rapid_measurement_multiplier kf)
     (Qn kf) r (P kf) (initialized kf) (velocity_history kf)
     (velocity_history_size kf) (current_measurement_noise kf) (current_process_noise kf).
Definition with_P (kf : t) (p : matrix) : t :=
  mk (state kf) (F kf) (H kf) (base_process_noise kf) (base_measurement_noise kf)
     (low_velocity_threshold kf) (high_velocity_threshold kf)
     (dwell_measurement_multiplier kf) (rapid_measurement_multiplier kf)
     (Qn kf) (R kf) p (initialized kf) (velocity_history kf)
     (velocity_history_size kf) (current_measurement_noise kf) (current_process_noise kf).
Definition with_initialized (kf : t) (b : bool) : t :=
  mk (state kf) (F kf) (H kf) (base_process_noise kf) (base_measurement_noise kf)
     (low_velocity_threshold kf) (high_velocity_threshold kf)
     (dwell_measurement_multiplier kf) (rapid_measurement_multiplier kf)
     (Qn kf) (R kf) (P kf) b (velocity_history kf)
     (velocity_history_size kf) (current_measurement_noise kf) (current_process_noise kf).
Definition with_velocity_history (kf : t) (h : list Q) : t :=
  mk (state kf) (F kf) (H kf) (base_process_noise kf) (base_measurement_noise kf)
     (low_velocity_threshold kf) (high_velocity_threshold kf)
     (dwell_measurement_multiplier kf) (rapid_measurement_multiplier kf)
     (Qn kf) (R kf) (P kf) (initialized kf) h
     (velocity_history_size kf) (current_measurement_noise kf) (current_process_noise kf).
Definition with_current_measurement_noise (kf : t) (n : Q) : t :=
  mk (state kf) (F kf) (H kf) (base_process_noise kf) (base_measurement_noise kf)
     (low_velocity_threshold kf) (high_velocity_threshold kf)
     (dwell_measurement_multiplier kf) (rapid_measurement_multiplier kf)
     (Qn kf) (R kf) (P kf) (initialized kf) (velocity_history kf)
     (velocity_history_size kf) n (current_process_noise kf).
Definition with_current_process_noise (kf : t) (n : Q) : t :=
  mk (state kf) (F kf) (H kf) (base_process_noise kf) (base_measurement_noise kf)
     (low_velocity_threshold kf) (high_velocity_threshold kf)
     (dwell_measurement_multiplier kf) (rapid_measurement_multiplier kf)
     (Qn kf) (R kf) (P kf) (initialized kf) (velocity_history kf)
     (velocity_history_size kf) (current_measurement_noise kf) n.

(** [self.velocity_history.pop(0)] *)
Definition pop0 (h : list Q) : list Q := tl h.

Definition reset (kf : t) : t :=
  let kf1 := with_state kf (Np.zeros 4) in
  let kf2 := with_P kf1 (Np.eye 4) in
  let kf3 := with_initialized kf2 false in
  let kf4 := with_velocity_history kf3 [] in
  let kf5 := with_current_measurement_noise kf4 (base_measurement_noise kf4) in
  with_current_process_noise kf5 (base_process_noise kf5).

Section WithNumpy.

Variable np_sqrt : Q -> Q.
Variable np_linalg_inv : matrix -> option matrix.

Definition _get_velocity (kf : t) : Q :=
  np_sqrt (nth 2 (state kf) 0 * nth 2 (state kf) 0
           + nth 3 (state kf) 0 * nth 3 (state kf) 0).

Definition _get_smoothed_velocity (kf : t) : Q :=
  match velocity_history kf with
  | [] => _get_velocity kf
  | _ :: _ => Np.mean (velocity_history kf)
  end.

Definition _update_velocity_history (kf : t) : t :=
  let kf1 := with_velocity_history kf (velocity_history kf ++ [_get_velocity kf]) in
  if Nat.ltb (velocity_history_size kf1) (length (velocity_history kf1))
  then with_velocity_history kf1 (pop0 (velocity_history kf1))
  else kf1.

(** The local [multiplier] of [_get_adaptive_measurement_noise]. *)
Definition measurement_multiplier (kf : t) : Q :=
  let velocity := _get_smoothed_velocity kf in
  if Qleb velocity (low_velocity_threshold kf) then
    dwell_measurement_multiplier kf
  else if Qleb (high_velocity_threshold kf) velocity then
    rapid_measurement_multiplier kf
  else
    let t := (velocity - low_velocity_threshold kf) /
             (high_velocity_threshold kf - low_velocity_threshold kf) in
    let smooth_t := t * t * (3 - 2 * t) in
    dwell_measurement_multiplier kf +
    smooth_t * (rapid_measurement_multiplier kf - dwell_measurement_multiplier kf).

Definition _get_adaptive_measurement_noise (kf : t) : t * matrix :=
  let multiplier := measurement_multiplier kf in
  let kf1 := with_current_measurement_noise kf (base_measurement_noise kf * multiplier) in
  (kf1, Np.mscale (Np.eye 2) (current_measurement_noise kf1)).

Definition _get_adaptive_process_noise (kf : t) : t * matrix :=
  let velocity := _get_smoothed_velocity kf in
  let velocity_factor := Np.clip (velocity / high_velocity_threshold kf) (1 # 2) 2 in
  let kf1 := with_current_process_noise kf (base_process_noise kf * velocity_factor) in
  (kf1, Np.mscale (Np.eye 4) (current_process_noise kf1)).

Definition predict (kf : t) : t * Vec2 :=
  if negb (initialized kf) then (kf, position (state kf))
  else
    let (kf0, q) := _get_adaptive_process_noise kf in
    let kf1 := with_Qn kf0 q in
    let kf2 := with_state kf1 (Np.matvec (F kf1) (state kf1)) in
    let kf3 :=
      with_P kf2
        (Np.madd (Np.matmul (Np.matmul (F kf2) (P kf2)) (Np.transpose (F kf2)))
                 (Qn kf2)) in
    (kf3, position (state kf3)).

Definition update (kf : t) (measurement : Vec2) : t * result Vec2 :=
  if negb (initialized kf) then
    let kf1 := with_state kf (assign_position (state kf) measurement) in
    (with_initialized kf1 true, Ok measurement)
  else
    let kf1 := fst (predict kf) in
    let (kf1', r) := _get_adaptive_measurement_noise kf1 in
    let kf2 := with_R kf1' r in
    let S := Np.madd (Np.matmul (Np.matmul (H kf2) (P kf2)) (Np.transpose (H kf2)))
                     (R kf2) in
    match np_linalg_inv S with
    | None => (kf2, Raise LinAlgError)
    | Some S_inv =>
        let K := Np.matmul (Np.matmul (P kf2) (Np.transpose (H kf2))) S_inv in
        let innovation := Np.vsub (vec_of measurement) (Np.matvec (H kf2) (state kf2)) in
        let kf3 := with_state kf2 (Np.vadd (state kf2) (Np.matvec K innovation)) in
        let kf4 :=
          with_P kf3 (Np.matmul (Np.msub (Np.eye 4) (Np.matmul K (H kf3))) (P kf3)) in
        let kf5 := _update_velocity_history kf4 in
        (kf5, Ok (position (state kf5)))
    end.

Definition is_dwelling (kf : t) : bool :=
  Qleb (_get_smoothed_velocity kf) (low_velocity_threshold kf).

Definition get_velocity (kf : t) : Q := _get_velocity kf.

End WithNumpy.

End AdaptiveKalmanFilter2D.

(** ** gaze_tracker.py: GazeData and EyeGazeTracker *)

Record GazeData : Type := mkGazeData {
  left_gaze : option Vec2;
  right_gaze : option Vec2;
  combined_gaze : option Vec2;
  screen_point : option (Z * Z);
  left_iris_center : option (Q * Q);
  right_iris_center : option (Q * Q);
  confidence : Q
}.

(** [GazeData()] *)
Definition GazeData_default : GazeData :=
  mkGazeData None None None None None None 0.

(** One normalized landmark of the face mesh. *)
Record Landmark : Type := mkLandmark { x : Q; y : Q }.

(** What [process_frame] reads of a frame: its shape and the result of
    the (external) face landmarker on it. *)
Record Frame : Type := mkFrame {
  frame_width : Z;
  frame_height : Z;
  face_landmarks : list (list Landmark)
}.

Module EyeGazeTracker.

Definition LEFT_EYE_OUTER : nat := 33.
Definition LEFT_EYE_INNER : nat := 133.
Definition LEFT_IRIS_CENTER : nat := 468.
Definition RIGHT_EYE_OUTER : nat := 362.
Definition RIGHT_EYE_INNER : nat := 263.
Definition RIGHT_IRIS_CENTER : nat := 473.
Definition LEFT_EYE_TOP : nat := 159.
Definition LEFT_EYE_BOTTOM : nat := 145.
Definition RIGHT_EYE_TOP : nat := 386.
Definition RIGHT_EYE_BOTTOM : nat := 374.

Record t : Type := mk {
  screen_width : Z;
  screen_height : Z;
  smoothing_factor : Q;
  sensitivity_x : Q;
  sensitivity_y : Q;
  offset_x : Q;
  offset_y : Q;
  left_kalman : KalmanFilter2D.t;
  right_kalman : KalmanFilter2D.t;
  combined_kalman : KalmanFilter2D.t;
  prev_screen_point : option (Z * Z)
}.

(** [__init__] (camera, model file and landmarker set-up left out) *)
Definition init (screen_width screen_height : Z)
                (process_noise measurement_noise smoothing_factor
                 sensitivity_x sensitivity_y offset_x offset_y : Q) : t :=
  {| screen_width := screen_width;
     screen_height := screen_height;
     smoothing_factor := smoothing_factor;
     sensitivity_x := sensitivity_x;
     sensitivity_y := sensitivity_y;
     offset_x := offset_x;
     offset_y := offset_y;
     left_kalman := KalmanFilter2D.init process_noise measurement_noise;
     right_kalman := KalmanFilter2D.init process_noise measurement_noise;
     combined_kalman := KalmanFilter2D.init process_noise measurement_noise;
     prev_screen_point := None |}.

Definition with_left_kalman (tr : t) (kf : KalmanFilter2D.t) : t :=
  mk (screen_width tr) (screen_height tr) (smoothing_factor tr)
     (sensitivity_x tr) (sensitivity_y tr) (offset_x tr) (offset_y tr)
     kf (right_kalman tr) (combined_kalman tr) (prev_screen_point tr).
Definition with_right_kalman (tr : t) (kf : KalmanFilter2D.t) : t :=
  mk (screen_width tr) (screen_height tr) (smoothing_factor tr)
     (sensitivity_x tr) (sensitivity_y tr) (offset_x tr) (offset_y tr)
     (left_kalman tr) kf (combined_kalman tr) (prev_screen_point tr).
Definition with_combined_kalman (tr : t) (kf : KalmanFilter2D.t) : t :=
  mk (screen_width tr) (screen_height tr) (smoothing_factor tr)
     (sensitivity_x tr) (sensitivity_y tr) (offset_x tr) (offset_y tr)
     (left_kalman tr) (right_kalman tr) kf (prev_screen_point tr).
Definition with_prev_screen_point (tr : t) (p : option (Z * Z)) : t :=
  mk (screen_width tr) (screen_height tr) (smoothing_factor tr)
     (sensitivity_x tr) (sensitivity_y tr) (offset_x tr) (offset_y tr)
     (left_kalman tr) (right_kalman tr) (combined_kalman tr) p.

Definition with_left (gd : GazeData) (g : Vec2) (iris : option (Q * Q)) : GazeData :=
  mkGazeData (Some g) (right_gaze gd) (combined_gaze gd) (screen_point gd)
             iris (right_iris_center gd) (confidence gd).
Definition with_right (gd : GazeData) (g : Vec2) (iris : option (Q * Q)) : GazeData :=
  mkGazeData (left_gaze gd) (Some g) (combined_gaze gd) (screen_point gd)
             (left_iris_center gd) iris (confidence gd).
Definition with_combined (gd : GazeData) (g : option Vec2) (c : Q) : GazeData :=
  mkGazeData (left_gaze gd) (right_gaze gd) g (screen_point gd)
             (left_iris_center gd) (right_iris_center gd) c.
Definition with_screen_point (gd : GazeData) (p : option (Z * Z)) : GazeData :=
  mkGazeData (left_gaze gd) (right_gaze gd) (combined_gaze gd) p
             (left_iris_center gd) (right_iris_center gd) (confidence gd).

(** Pixel coordinates [np.array([lm.x * frame_width, lm.y * frame_height])]. *)
Definition to_px (lm : Landmark) (frame_width frame_height : Z) : Q * Q :=
  (x lm * inject_Z frame_width, y lm * inject_Z frame_height).

Definition _detect_blink (landmarks : list Landmark) (frame_height : Z)
  : result (bool * bool) :=
  try_except_IndexError
    (do lt <- py_index landmarks LEFT_EYE_TOP;
     let left_top := y lt * inject_Z frame_height in
     do lb <- py_index landmarks LEFT_EYE_BOTTOM;
     let left_bottom := y lb * inject_Z frame_height in
     let left_ear := Qabs (left_bottom - left_top) in
     do rt <- py_index landmarks RIGHT_EYE_TOP;
     let right_top := y rt * inject_Z frame_height in
     do rb <- py_index landmarks RIGHT_EYE_BOTTOM;
     let right_bottom := y rb * inject_Z frame_height in
     let right_ear := Qabs (right_bottom - right_top) in
     let blink_threshold := 5 in
     let left_blink := Qltb left_ear blink_threshold in
     let right_blink := Qltb right_ear blink_threshold in
     Ok (left_blink, right_blink))
    (false, false).

(** [reset_filters] *)
Definition reset_filters (tr : t) : t :=
  let tr1 := with_left_kalman tr (KalmanFilter2D.reset (left_kalman tr)) in
  let tr2 := with_right_kalman tr1 (KalmanFilter2D.reset (right_kalman tr1)) in
  let tr3 := with_combined_kalman tr2 (KalmanFilter2D.reset (combined_kalman tr2)) in
  with_prev_screen_point tr3 None.

Definition with_sensitivity (tr : t) (sx sy : Q) : t :=
  mk (screen_width tr) (screen_height tr) (smoothing_factor tr)
     sx sy (offset_x tr) (offset_y tr)
     (left_kalman tr) (right_kalman tr) (combined_kalman tr) (prev_screen_point tr).
Definition with_offset (tr : t) (ox oy : Q) : t :=
  mk (screen_width tr) (screen_height tr) (smoothing_factor tr)
     (sensitivity_x tr) (sensitivity_y tr) ox oy
     (left_kalman tr) (right_kalman tr) (combined_kalman tr) (prev_screen_point tr).

(** [set_sensitivity(x, y)]; [None] is an argument left out. *)
Definition set_sensitivity (tr : t) (x y : option Q) : t :=
  let tr1 :=
    match x with
    | Some v => with_sensitivity tr (py_max (1 # 2) (py_min 5 v)) (sensitivity_y tr)
    | None => tr
    end in
  match y with
  | Some v => with_sensitivity tr1 (sensitivity_x tr1) (py_max (1 # 2) (py_min 5 v))
  | None => tr1
  end.

Definition get_sensitivity (tr : t) : Q * Q := (sensitivity_x tr, sensitivity_y tr).

(** [set_offset(x, y)]; [None] is an argument left out. *)
Definition set_offset (tr : t) (x y : option Q) : t :=
  let tr1 :=
    match x with
    | Some v => with_offset tr (py_max (-1) (py_min 1 v)) (offset_y tr)
    | None => tr
    end in
  match y with
  | Some v => with_offset tr1 (offset_x tr1) (py_max (-1) (py_min 1 v))
  | None => tr1
  end.

Definition get_offset (tr : t) : Q * Q := (offset_x tr, offset_y tr).

Section WithNumpy.

Variable np_sqrt : Q -> Q.
Variable np_linalg_inv : matrix -> option matrix.

(** [np.linalg.norm] of a length-2 array. *)
Definition np_linalg_norm (v : Q * Q) : Q := np_sqrt (fst v * fst v + snd v * snd v).

(** The [eye_width] computed by [_get_iris_position]. *)
Definition eye_width_px (outer inner : Landmark) (frame_width frame_height : Z) : Q :=
  let outer_px := to_px outer frame_width frame_height in
  let inner_px := to_px inner frame_width frame_height in
  np_linalg_norm (fst inner_px - fst outer_px, snd inner_px - snd outer_px).

Definition _get_iris_position (tr : t) (landmarks : list Landmark)
           (eye_outer_idx eye_inner_idx iris_center_idx : nat)
           (frame_width frame_height : Z)
  : result (option Vec2 * option (Q * Q)) :=
  try_except_IndexError
    (do outer <- py_index landmarks eye_outer_idx;
     do inner <- py_index landmarks eye_inner_idx;
     let outer_px := to_px outer frame_width frame_height in
     let inner_px := to_px inner frame_width frame_height in
     let eye_width := eye_width_px outer inner frame_width frame_height in
     if Qltb eye_width 1 then Ok (None, None)
     else
       let eye_center := ((fst outer_px + fst inner_px) / 2,
                          (snd outer_px + snd inner_px) / 2) in
       do iris_px <-
         (if Nat.ltb iris_center_idx (length landmarks) then
            do iris <- py_index landmarks iris_center_idx;
            Ok (to_px iris frame_width frame_height)
          else
            do top <- py_index landmarks
                        (if Nat.eqb eye_outer_idx LEFT_EYE_OUTER
                         then LEFT_EYE_TOP else RIGHT_EYE_TOP);
            do bottom <- py_index landmarks
                           (if Nat.eqb eye_outer_idx LEFT_EYE_OUTER
                            then LEFT_EYE_BOTTOM else RIGHT_EYE_BOTTOM);
            let top_px := to_px top frame_width frame_height in
            let bottom_px := to_px bottom frame_width frame_height in
            Ok ((fst outer_px + fst inner_px + fst top_px + fst bottom_px) / 4,
                (snd outer_px + snd inner_px + snd top_px + snd bottom_px) / 4));
       let gaze_x := (fst iris_px - fst eye_center) / (eye_width / 2) * sensitivity_x tr in
       let gaze_y := (snd iris_px - snd eye_center) / (eye_width / 4) * sensitivity_y tr in
       let gaze_x := gaze_x + offset_x tr in
       let gaze_y := gaze_y + offset_y tr in
       let gaze_x := Np.clip gaze_x (-1) 1 in
       let gaze_y := Np.clip gaze_y (-1) 1 in
       Ok (Some (gaze_x, gaze_y), Some iris_px))
    (None, None).

(** A block of [process_frame]: it mutates the tracker, fills in
    the frame's [GazeData], and may raise. *)
Definition block : Type := t -> GazeData -> t * result GazeData.

Definition then_ (b1 b2 : block) : block :=
  fun tr gd =>
    match b1 tr gd with
    | (tr1, Ok gd1) => b2 tr1 gd1
    | (tr1, Raise e) => (tr1, Raise e)
    end.

(** [if not left_blink: ...] *)
Definition left_eye (left_blink : bool) (landmarks : list Landmark)
           (frame_width frame_height : Z) : block :=
  fun tr gd =>
    if negb left_blink then
      match _get_iris_position tr landmarks LEFT_EYE_OUTER LEFT_EYE_INNER
                               LEFT_IRIS_CENTER frame_width frame_height with
      | Raise e => (tr, Raise e)
      | Ok (Some g, left_iris) =>
          match KalmanFilter2D.update np_linalg_inv (left_kalman tr) g with
          | (kf, Ok filtered) => (with_left_kalman tr kf, Ok (with_left gd filtered left_iris))
          | (kf, Raise e) => (with_left_kalman tr kf, Raise e)
          end
      | Ok (None, _) => (tr, Ok gd)
      end
    else (tr, Ok gd).

(** [if not right_blink: ...] *)
Definition right_eye (right_blink : bool) (landmarks : list Landmark)
           (frame_width frame_height : Z) : block :=
  fun tr gd =>
    if negb right_blink then
      match _get_iris_position tr landmarks RIGHT_EYE_OUTER RIGHT_EYE_INNER
                               RIGHT_IRIS_CENTER frame_width frame_height with
      | Raise e => (tr, Raise e)
      | Ok (Some g, right_iris) =>
          match KalmanFilter2D.update np_linalg_inv (right_kalman tr) g with
          | (kf, Ok filtered) => (with_right_kalman tr kf, Ok (with_right gd filtered right_iris))
          | (kf, Raise e) => (with_right_kalman tr kf, Raise e)
          end
      | Ok (None, _) => (tr, Ok gd)
      end
    else (tr, Ok gd).

(** [# Combine gaze from both eyes] *)
Definition combine_eyes : block :=
  fun tr gd =>
    match left_gaze gd, right_gaze gd with
    | Some l, Some r =>
        let combined := ((fst l + fst r) / 2, (snd l + snd r) / 2) in
        match KalmanFilter2D.update np_linalg_inv (combined_kalman tr) combined with
        | (kf, Ok c) => (with_combined_kalman tr kf, Ok (with_combined gd (Some c) 1))
        | (kf, Raise e) => (with_combined_kalman tr kf, Raise e)
        end
    | Some l, None => (tr, Ok (with_combined gd (Some l) (7 # 10)))
    | None, Some r => (tr, Ok (with_combined gd (Some r) (7 # 10)))
    | None, None => (tr, Ok gd)
    end.

(** [# Map to screen coordinates] *)
Definition map_to_screen : block :=
  fun tr gd =>
    match combined_gaze gd with
    | Some g =>
        let screen_x := py_int ((fst g + 1) / 2 * inject_Z (screen_width tr)) in
        let screen_y := py_int ((snd g + 1) / 2 * inject_Z (screen_height tr)) in
        let '(screen_x, screen_y) :=
          match prev_screen_point tr with
          | Some prev =>
              (py_int (smoothing_factor tr * inject_Z screen_x
                       + (1 - smoothing_factor tr) * inject_Z (fst prev)),
               py_int (smoothing_factor tr * inject_Z screen_y
                       + (1 - smoothing_factor tr) * inject_Z (snd prev)))
          | None => (screen_x, screen_y)
          end in
        let gd1 := with_screen_point gd (Some (screen_x, screen_y)) in
        (with_prev_screen_point tr (screen_point gd1), Ok gd1)
    | None => (tr, Ok gd)
    end.

(** [process_frame] without the drawing and the timing. *)
Definition process_frame (tr : t) (frame : Frame) : t * result GazeData :=
  let gaze_data := GazeData_default in
  match face_landmarks frame with
  | landmarks :: _ =>
      match _detect_blink landmarks (frame_height frame) with
      | Raise e => (tr, Raise e)
      | Ok (left_blink, right_blink) =>
          then_ (left_eye left_blink landmarks (frame_width frame) (frame_height frame))
         (then_ (right_eye right_blink landmarks (frame_width frame) (frame_height frame))
         (then_ combine_eyes map_to_screen)) tr gaze_data
      end
  | [] => (tr, Ok gaze_data)
  end.

End WithNumpy.

End EyeGazeTracker.

(** ** The interactive collection loops

    [CalibrationTool._collect_point_data] and
    [QuickCalibration._collect_point] show a target and loop over camera
    frames and key presses until ESC is pressed or enough samples are
    recorded.  What such a loop ends with is an input of the model. *)

Inductive collected : Type :=
| Cancelled                        (* ESC *)
| Recorded (samples : list Vec2)   (* the combined gaze vectors recorded *)
| Failed (e : exn).                (* an exception escaped the loop *)

(** ** calibration.py: CalibrationTool *)

Inductive CalibrationMode : Type :=
| AFFINE
| POLYNOMIAL.

(** The arrays of a saved [.npz] calibration file that [load_calibration] reads. *)
Record SavedCalibration : Type := mkSaved {
  saved_transform_x : vector;
  saved_transform_y : vector;
  saved_mode : option string
}.

Module CalibrationTool.

Record t : Type := mk {
  num_points : Z;
  samples_per_point : Z;
  screen_width : Z;
  screen_height : Z;
  mode : CalibrationMode;
  calibration_points : list (Z * Z);
  calibration_data : list ((Z * Z) * list Vec2);
  transform_matrix : option matrix;
  transform_x : option vector;
  transform_y : option vector
}.

Definition with_calibration_data (c : t) (d : list ((Z * Z) * list Vec2)) : t :=
  mk (num_points c) (samples_per_point c) (screen_width c) (screen_height c) (mode c)
     (calibration_points c) d (transform_matrix c) (transform_x c) (transform_y c).
Definition with_mode (c : t) (m : CalibrationMode) : t :=
  mk (num_points c) (samples_per_point c) (screen_width c) (screen_height c) m
     (calibration_points c) (calibration_data c)
     (transform_matrix c) (transform_x c) (transform_y c).
Definition with_transform_matrix (c : t) (m : option matrix) : t :=
  mk (num_points c) (samples_per_point c) (screen_width c) (screen_height c) (mode c)
     (calibration_points c) (calibration_data c) m (transform_x c) (transform_y c).
Definition with_transform_x (c : t) (v : option vector) : t :=
  mk (num_points c) (samples_per_point c) (screen_width c) (screen_height c) (mode c)
     (calibration_points c) (calibration_data c) (transform_matrix c) v (transform_y c).
Definition with_transform_y (c : t) (v : option vector) : t :=
  mk (num_points c) (samples_per_point c) (screen_width c) (screen_height c) (mode c)
     (calibration_points c) (calibration_data c) (transform_matrix c) (transform_x c) v.

Definition _generate_points (num_points screen_width screen_height : Z) : list (Z * Z) :=
  let margin_x := py_int (inject_Z screen_width * (1 # 10)) in
  let margin_y := py_int (inject_Z screen_height * (1 # 10)) in
  if Z.eqb num_points 5 then
    [ (margin_x, margin_y);
      (screen_width - margin_x, margin_y);
      (screen_width / 2, screen_height / 2);
      (margin_x, screen_height - margin_y);
      (screen_width - margin_x, screen_height - margin_y) ]%Z
  else
    flat_map
      (fun row =>
         map (fun col =>
                (margin_x + col * (screen_width - 2 * margin_x) / 2,
                 margin_y + row * (screen_height - 2 * margin_y) / 2)%Z)
             [0; 1; 2]%Z)
      [0; 1; 2]%Z.

(** [__init__] *)
Definition init (num_points samples_per_point screen_width screen_height : Z)
                (mode : CalibrationMode) : t :=
  {| num_points := num_points;
     samples_per_point := samples_per_point;
     screen_width := screen_width;
     screen_height := screen_height;
     mode := mode;
     calibration_points := _generate_points num_points screen_width screen_height;
     calibration_data := [];
     transform_matrix := None;
     transform_x := None;
     transform_y := None |}.

(** [np.vstack([u, v])]: [ValueError] when the rows differ in length. *)
Definition np_vstack (u v : vector) : result matrix :=
  if Nat.eqb (length u) (length v) then Ok [u; v] else Raise ValueError.

(** The feature row of a gaze vector. *)
Definition gaze_features (m : CalibrationMode) (gx gy : Q) : vector :=
  match m with
  | POLYNOMIAL => [1; gx; gy; gx * gx; gy * gy; gx * gy]
  | AFFINE => [1; gx; gy]
  end.


Definition gaze_to_screen (c : t) (gaze : Vec2) : result (Z * Z) :=
  match transform_matrix c, transform_x c, transform_y c with
  | Some _, Some tx, Some ty =>
      let gx := fst gaze in
      let gy := snd gaze in
      let features := gaze_features (mode c) gx gy in
      do dx <- Np.dot tx features;
      let x := py_int dx in
      do dy <- Np.dot ty features;
      let y := py_int dy in
      let x := Z.max 0 (Z.min (screen_width c - 1) x) in
      let y := Z.max 0 (Z.min (screen_height c - 1) y) in
      Ok (x, y)
  | _, _, _ =>
      let x := py_int ((fst gaze + 1) / 2 * inject_Z (screen_width c)) in
      let y := py_int ((snd gaze + 1) / 2 * inject_Z (screen_height c)) in
      Ok (x, y)
  end.

(** [load_calibration]; [None] is a file that cannot be read. *)
Definition load_calibration (c : t) (file : option SavedCalibration) : t * bool :=
  match file with
  | None => (c, false)
  | Some data =>
      let c1 := with_transform_x c (Some (saved_transform_x data)) in
      let c2 := with_transform_y c1 (Some (saved_transform_y data)) in
      match np_vstack (saved_transform_x data) (saved_transform_y data) with
      | Raise _ => (c2, false)
      | Ok m =>
          let c3 := with_transform_matrix c2 (Some m) in
          let c4 :=
            match saved_mode data with
            | Some mode_str =>
                with_mode c3 (if String.eqb mode_str "polynomial"
                              then POLYNOMIAL else AFFINE)
            | None =>
                with_mode c3 (if Nat.eqb (length (saved_transform_x data)) 6
                              then POLYNOMIAL else AFFINE)
            end in
          (c4, true)
      end
  end.

(** [mode.value] *)
Definition mode_value (m : CalibrationMode) : string :=
  match m with
  | AFFINE => "affine"%string
  | POLYNOMIAL => "polynomial"%string
  end.

(** [save_calibration]: the arrays it writes that [load_calibration]
    reads back; [None] is its [return False], nothing written.  The
    file also holds the calibration points and the screen size, which
    [load_calibration] never reads.  [transform_matrix] is only ever set
    after both coefficient vectors, so a matrix without them does not
    occur. *)
Definition save_calibration (c : t) : option SavedCalibration :=
  match transform_matrix c, transform_x c, transform_y c with
  | Some _, Some tx, Some ty =>
      Some {| saved_transform_x := tx;
              saved_transform_y := ty;
              saved_mode := Some (mode_value (mode c)) |}
  | _, _, _ => None
  end.

(** [_collect_point_data]: ESC returns [False]; a full recording is
    appended to [calibration_data] and returns [True]. *)
Definition _collect_point_data (c : t) (point : Z * Z) (o : collected) : t * result bool :=
  match o with
  | Cancelled => (c, Ok false)
  | Recorded samples =>
      (with_calibration_data c (calibration_data c ++ [(point, samples)]), Ok true)
  | Failed e => (c, Raise e)
  end.

Section WithNumpy.

Variable np_linalg_lstsq : matrix -> vector -> vector.

(** The design matrix [A]: one feature row per calibration point. *)
Definition design_matrix (m : CalibrationMode) (gaze_points : list Vec2) : matrix :=
  map (fun g => gaze_features m (fst g) (snd g)) gaze_points.

(** The loop that computes the calibration error; only its
    exceptions matter, the errors are printed. *)
Fixpoint calibration_errors (c : t) (data : list ((Z * Z) * list Vec2))
  : result (list (Z * Z)) :=
  match data with
  | [] => Ok []
  | (screen_point, samples) :: rest =>
      let avg_gaze := Np.mean_axis0 samples in
      do predicted <- gaze_to_screen c avg_gaze;
      do others <- calibration_errors c rest;
      Ok (predicted :: others)
  end.

Definition _compute_calibration (c : t) : t * result unit :=
  let min_points := match mode c with POLYNOMIAL => 6%nat | AFFINE => 4%nat end in
  if Nat.ltb (length (calibration_data c)) min_points then
    (c, Ok tt)
  else
    let gaze_points := map (fun d => Np.mean_axis0 (snd d)) (calibration_data c) in
    let screen_points := map fst (calibration_data c) in
    let A := design_matrix (mode c) gaze_points in
    let tx := np_linalg_lstsq A (map (fun p => inject_Z (fst p)) screen_points) in
    let c1 := with_transform_x c (Some tx) in
    let ty := np_linalg_lstsq A (map (fun p => inject_Z (snd p)) screen_points) in
    let c2 := with_transform_y c1 (Some ty) in
    match np_vstack tx ty with
    | Raise e => (c2, Raise e)
    | Ok m =>
        let c3 := with_transform_matrix c2 (Some m) in
        match calibration_errors c3 (calibration_data c3) with
        | Raise e => (c3, Raise e)
        | Ok _ => (c3, Ok tt)
        end
    end.

(** The [for] loop of [run_calibration]: [Ok false] is the early
    [return False] of a cancelled point. *)
Fixpoint collect_points (c : t) (points : list (Z * Z)) (i : nat)
         (session : nat -> collected) : t * result bool :=
  match points with
  | [] => (c, Ok true)
  | point :: rest =>
      match _collect_point_data c point (session i) with
      | (c1, Ok true) => collect_points c1 rest (S i) session
      | (c1, Ok false) => (c1, Ok false)
      | (c1, Raise e) => (c1, Raise e)
      end
  end.

(** [run_calibration]; [session i] is what collecting point [i]
    ends with.  [except Exception] turns every exception into
    [return False]. *)
Definition run_calibration (c : t) (session : nat -> collected) : t * bool :=
  let c0 := with_calibration_data c [] in
  match collect_points c0 (calibration_points c0) 0 session with
  | (c1, Raise _) => (c1, false)
  | (c1, Ok false) => (c1, false)
  | (c1, Ok true) =>
      match _compute_calibration c1 with
      | (c2, Raise _) => (c2, false)
      | (c2, Ok _) => (c2, true)
      end
  end.

End WithNumpy.

End CalibrationTool.

(** ** visual_assessment.py: QuickCalibration *)

(** The dictionary [_collect_point] returns. *)
Record Measurement : Type := mkMeasurement {
  name : string;
  target_x : Z;
  target_y : Z;
  expected_x : Q;
  expected_y : Q;
  measured_x : Q;
  measured_y : Q;
  error_x : Q;
  error_y : Q
}.

(** [a / b] on two [int]s. *)
Definition py_truediv (a b : Z) : result Q :=
  if Z.eqb b 0 then Raise ZeroDivisionError else Ok (inject_Z a / inject_Z b).

Module QuickCalibration.

Record t : Type := mk {
  tracker : EyeGazeTracker.t;
  screen_width : Z;
  screen_height : Z;
  cal_points : list (string * Z * Z)
}.

(** [__init__] *)
Definition init (tracker : EyeGazeTracker.t) (screen_width screen_height : Z) : t :=
  let margin := 150%Z in
  {| tracker := tracker;
     screen_width := screen_width;
     screen_height := screen_height;
     cal_points :=
       [ ("center"%string, screen_width / 2, screen_height / 2);
         ("top"%string, screen_width / 2, margin);
         ("bottom"%string, screen_width / 2, screen_height - margin);
         ("left"%string, margin, screen_height / 2);
         ("right"%string, screen_width - margin, screen_height / 2) ]%Z |}.

(** [_collect_point]: ESC returns [None]; a full recording returns
    the measurement of the point. *)
Definition _collect_point (qc : t) (name : string) (target_x target_y : Z)
           (o : collected) : result (option Measurement) :=
  match o with
  | Cancelled => Ok None
  | Failed e => Raise e
  | Recorded samples =>
      let avg_gaze_x := Np.mean (map fst samples) in
      let avg_gaze_y := Np.mean (map snd samples) in
      do rx <- py_truediv target_x (screen_width qc);
      let expected_x := rx * 2 - 1 in
      do ry <- py_truediv target_y (screen_height qc);
      let expected_y := ry * 2 - 1 in
      Ok (Some {| name := name;
                  target_x := target_x;
                  target_y := target_y;
                  expected_x := expected_x;
                  expected_y := expected_y;
                  measured_x := avg_gaze_x;
                  measured_y := avg_gaze_y;
                  error_x := expected_x - avg_gaze_x;
                  error_y := expected_y - avg_gaze_y |})
  end.

Definition _compute_offsets (qc : t) (measurements : list Measurement) : Q * Q :=
  let avg_error_x := Np.mean (map error_x measurements) in
  let avg_error_y := Np.mean (map error_y measurements) in
  let new_offset_x := EyeGazeTracker.offset_x (tracker qc) + avg_error_x in
  let new_offset_y := EyeGazeTracker.offset_y (tracker qc) + avg_error_y in
  let new_offset_x := Np.clip new_offset_x (-1) 1 in
  let new_offset_y := Np.clip new_offset_y (-1) 1 in
  (new_offset_x, new_offset_y).

(** The [for] loop of [run]: [Ok None] is the early return of a
    cancelled point, [Ok (Some ms)] the measurements of all points. *)
Fixpoint collect_all (qc : t) (points : list (string * Z * Z)) (i : nat)
         (session : nat -> collected) : result (option (list Measurement)) :=
  match points with
  | [] => Ok (Some [])
  | (name, target_x, target_y) :: rest =>
      do r <- _collect_point qc name target_x target_y (session i);
      match r with
      | None => Ok None
      | Some m =>
          do others <- collect_all qc rest (S i) session;
          Ok (option_map (cons m) others)
      end
  end.

(** [run]; a cancelled point and any exception return the tracker's
    current offsets. *)
Definition run (qc : t) (session : nat -> collected) : Q * Q :=
  let current := (EyeGazeTracker.offset_x (tracker qc),
                  EyeGazeTracker.offset_y (tracker qc)) in
  match collect_all qc (cal_points qc) 0 session with
  | Raise _ => current
  | Ok None => current
  | Ok (Some measurements) => _compute_offsets qc measurements
  end.

End QuickCalibration.

(** [quick_vertical_calibration]: [samples] are the vertical gaze
    components its loop recorded (none when ESC came first). *)
Definition quick_vertical_calibration (tracker : EyeGazeTracker.t) (samples : list Q) : Q :=
  match samples with
  | [] => EyeGazeTracker.offset_y tracker
  | _ :: _ =>
      let measured_y := Np.mean samples in
      let expected_y := - (8 # 10) in
      let error_y := expected_y - measured_y in
      let new_offset_y := EyeGazeTracker.offset_y tracker + error_y in
      Np.clip new_offset_y (-1) 1
  end.

(** ** visual_assessment.py: VisualAssessmentTool *)

Module VisualAssessmentTool.

Record Target : Type := mkTarget {
  id : string;
  x : Z;
  y : Z;
  width : Z;
  height : Z;
  color : Z * Z * Z;
  shape : string;
  image_path : option string
}.

Record GazeEvent : Type := mkGazeEvent {
  timestamp : Q;
  target_id : option string;
  gaze_x : Q;
  gaze_y : Q;
  screen_x : Z;
  screen_y : Z;
  dwell_time : Q;
  selected : bool
}.

Record t : Type := mk {
  tracker : EyeGazeTracker.t;
  screen_width : Z;
  screen_height : Z;
  background_color : Z * Z * Z;
  dwell_threshold : Q;
  calibrator : option CalibrationTool.t;
  targets : list Target;
  session_start : option Q;
  events : list GazeEvent;
  current_target : option string;
  dwell_start : option Q;
  selections : list string
}.

(** [__init__] *)
Definition init (tracker : EyeGazeTracker.t) (screen_width screen_height : Z)
                (background_color : Z * Z * Z) (dwell_threshold : Q) : t :=
  {| tracker := tracker;
     screen_width := screen_width;
     screen_height := screen_height;
     background_color := background_color;
     dwell_threshold := dwell_threshold;
     calibrator := None;
     targets := [];
     session_start := None;
     events := [];
     current_target := None;
     dwell_start := None;
     selections := [] |}.

Definition with_tracker (v : t) (tr : EyeGazeTracker.t) : t :=
  mk tr (screen_width v) (screen_height v) (background_color v) (dwell_threshold v)
     (calibrator v) (targets v) (session_start v) (events v) (current_target v)
     (dwell_start v) (selections v).
Definition with_calibrator (v : t) (c : option CalibrationTool.t) : t :=
  mk (tracker v) (screen_width v) (screen_height v) (background_color v) (dwell_threshold v)
     c (targets v) (session_start v) (events v) (current_target v)
     (dwell_start v) (selections v).
Definition with_targets (v : t) (ts : list Target) : t :=
  mk (tracker v) (screen_width v) (screen_height v) (background_color v) (dwell_threshold v)
     (calibrator v) ts (session_start v) (events v) (current_target v)
     (dwell_start v) (selections v).
Definition with_session_start (v : t) (s : option Q) : t :=
  mk (tracker v) (screen_width v) (screen_height v) (background_color v) (dwell_threshold v)
     (calibrator v) (targets v) s (events v) (current_target v)
     (dwell_start v) (selections v).
Definition with_events (v : t) (es : list GazeEvent) : t :=
  mk (tracker v) (screen_width v) (screen_height v) (background_color v) (dwell_threshold v)
     (calibrator v) (targets v) (session_start v) es (current_target v)
     (dwell_start v) (selections v).
Definition with_current_target (v : t) (c : option string) : t :=
  mk (tracker v) (screen_width v) (screen_height v) (background_color v) (dwell_threshold v)
     (calibrator v) (targets v) (session_start v) (events v) c
     (dwell_start v) (selections v).
Definition with_dwell_start (v : t) (d : option Q) : t :=
  mk (tracker v) (screen_width v) (screen_height v) (background_color v) (dwell_threshold v)
     (calibrator v) (targets v) (session_start v) (events v) (current_target v)
     d (selections v).
Definition with_selections (v : t) (l : list string) : t :=
  mk (tracker v) (screen_width v) (screen_height v) (background_color v) (dwell_threshold v)
     (calibrator v) (targets v) (session_start v) (events v) (current_target v)
     (dwell_start v) l.

(** [load_calibration]: [file_exists] is [os.path.exists(filename)],
    [file] what [np.load] finds. *)
Definition load_calibration (v : t) (file_exists : bool) (file : option SavedCalibration)
  : t * bool :=
  if negb file_exists then (v, false)
  else
    let c := CalibrationTool.init 9 30 (screen_width v) (screen_height v) POLYNOMIAL in
    match CalibrationTool.load_calibration c file with
    | (c', true) => (with_calibrator v (Some c'), true)
    | (_, false) => (with_calibrator v None, false)
    end.

(** [get_calibrated_screen_point] *)
Definition get_calibrated_screen_point (v : t) (gaze_data : GazeData)
  : result (option (Z * Z)) :=
  match combined_gaze gaze_data with
  | None => Ok None
  | Some g =>
      match calibrator v with
      | Some c =>
          match CalibrationTool.transform_matrix c with
          | Some _ =>
              do p <- CalibrationTool.gaze_to_screen c g;
              Ok (Some p)
          | None => Ok (screen_point gaze_data)
          end
      | None => Ok (screen_point gaze_data)
      end
  end.

(** [add_target] *)
Definition add_target (v : t) (target_id : string) (x y width height : Z)
           (color : Z * Z * Z) (shape : string) : t :=
  with_targets v (targets v ++ [mkTarget target_id x y width height color shape None]).

(** The default colours of [create_grid_layout]. *)
Definition default_colors : list (Z * Z * Z) :=
  [ (0, 255, 255); (255, 0, 0); (0, 0, 255); (0, 255, 0); (255, 0, 255); (255, 255, 0) ]%Z.

(** The body of the two nested loops of [create_grid_layout], one
    target at a time; [idx] counts the targets added so far. *)
Fixpoint add_grid_targets (v : t) (cells : list (Z * Z)) (idx : Z)
         (margin_x margin_y target_size : Z) (colors : list (Z * Z * Z)) : t * result unit :=
  match cells with
  | [] => (v, Ok tt)
  | (row, col) :: rest =>
      let x := (margin_x + col * (target_size + margin_x) + target_size / 2)%Z in
      let y := (margin_y + row * (target_size + margin_y) + target_size / 2)%Z in
      match py_mod idx (Z.of_nat (List.length colors)) with
      | Raise e => (v, Raise e)
      | Ok i =>
          let color := nth (Z.to_nat i) colors (0, 0, 0)%Z in
          let v1 :=
            add_target v
              (String.append "target_"
                 (String.append (py_str_int row) (String.append "_" (py_str_int col))))
              x y target_size target_size color "circle" in
          add_grid_targets v1 rest (idx + 1)%Z margin_x margin_y target_size colors
      end
  end.

(** [create_grid_layout] *)
Definition create_grid_layout (v : t) (rows cols target_size : Z)
           (colors : option (list (Z * Z * Z))) : t * result unit :=
  let v0 := with_targets v [] in
  let colors := match colors with Some cs => cs | None => default_colors end in
  match py_floordiv (screen_width v0 - cols * target_size) (cols + 1) with
  | Raise e => (v0, Raise e)
  | Ok margin_x =>
      match py_floordiv (screen_height v0 - rows * target_size) (rows + 1) with
      | Raise e => (v0, Raise e)
      | Ok margin_y =>
          let cells :=
            flat_map (fun row => map (fun col => (row, col)) (py_range cols)) (py_range rows) in
          add_grid_targets v0 cells 0 margin_x margin_y target_size colors
      end
  end.

(** [create_preference_test] *)
Definition create_preference_test (v : t) (left_color right_color : Z * Z * Z)
           (target_size : Z) : t :=
  let v0 := with_targets v [] in
  let v1 := add_target v0 "left" (screen_width v0 / 4) (screen_height v0 / 2)
                       target_size target_size left_color "circle" in
  add_target v1 "right" (3 * screen_width v1 / 4) (screen_height v1 / 2)
             target_size target_size right_color "circle".

(** [if s:] on an optional string: [None] and the empty string are false. *)
Definition truthy_id (s : option string) : bool :=
  match s with
  | Some i => negb (String.eqb i "")
  | None => false
  end.

(** [if t:] on an optional float: [None] and zero are false. *)
Definition truthy_time (d : option Q) : bool :=
  match d with
  | Some q => negb (Qeq_bool q 0)
  | None => false
  end.

Definition option_string_eqb (a b : option string) : bool :=
  match a, b with
  | Some i, Some j => String.eqb i j
  | None, None => true
  | _, _ => false
  end.

(** The block [# Handle dwell selection] of [run_session].  [elapsed]
    is [current_time - session_start]. *)
Definition handle_dwell (v : t) (gaze_data : GazeData) (gazed_target : option string)
           (current_time elapsed : Q) (screen_x screen_y : Z) : t * result unit :=
  if truthy_id gazed_target then
    if negb (option_string_eqb gazed_target (current_target v)) then
      (with_dwell_start (with_current_target v gazed_target) (Some current_time), Ok tt)
    else if truthy_time (dwell_start v) then
      let dwell_time := current_time - match dwell_start v with Some d => d | None => 0 end in
      if Qeq_bool (dwell_threshold v) 0 then (v, Raise ZeroDivisionError)
      else
        if Qleb (dwell_threshold v) dwell_time then
          let v1 := with_selections v (selections v ++
                      [match gazed_target with Some i => i | None => ""%string end]) in
          let event :=
            {| timestamp := elapsed;
               target_id := gazed_target;
               gaze_x := match combined_gaze gaze_data with Some g => fst g | None => 0 end;
               gaze_y := match combined_gaze gaze_data with Some g => snd g | None => 0 end;
               screen_x := screen_x;
               screen_y := screen_y;
               dwell_time := dwell_time;
               selected := true |} in
          let v2 := with_events v1 (events v1 ++ [event]) in
          (with_dwell_start v2 (Some current_time), Ok tt)
        else (v, Ok tt)
    else (v, Ok tt)
  else
    (with_dwell_start (with_current_target v None) None, Ok tt).

(** The key handling at the end of an iteration of [run_session];
    [true] is the [break] of [q]. *)
Definition handle_key (v : t) (key : Z) : t * bool :=
  let tr := tracker v in
  if Z.eqb key 113 then (v, true)
  else if Z.eqb key 114 then (with_selections v [], false)
  else if Z.eqb key 82 || Z.eqb key 0 then
    let off_y := EyeGazeTracker.offset_y tr - (5 # 100) in
    (with_tracker v (EyeGazeTracker.set_offset tr None (Some off_y)), false)
  else if Z.eqb key 84 || Z.eqb key 1 then
    let off_y := EyeGazeTracker.offset_y tr + (5 # 100) in
    (with_tracker v (EyeGazeTracker.set_offset tr None (Some off_y)), false)
  else if Z.eqb key 81 || Z.eqb key 2 then
    let off_x := EyeGazeTracker.offset_x tr - (5 # 100) in
    (with_tracker v (EyeGazeTracker.set_offset tr (Some off_x) None), false)
  else if Z.eqb key 83 || Z.eqb key 3 then
    let off_x := EyeGazeTracker.offset_x tr + (5 # 100) in
    (with_tracker v (EyeGazeTracker.set_offset tr (Some off_x) None), false)
  else (v, false).

(** One turn of the [while] loop of [run_session]: the clock, what the
    camera delivered ([None]: no frame) and the key pressed. *)
Record Turn : Type := mkTurn {
  current_time : Q;
  camera : option Frame;
  key : Z
}.

(** [_generate_results], the counts: [selection_counts] as the list of
    its items in insertion order, and [total_selections]. *)
Fixpoint count_id (i : string) (l : list string) : Z :=
  match l with
  | [] => 0
  | j :: rest => ((if String.eqb i j then 1 else 0) + count_id i rest)%Z
  end.

(** [d[k] = v] on a dictionary kept as its items in insertion order. *)
Fixpoint dict_set (d : list (string * Z)) (k : string) (c : Z) : list (string * Z) :=
  match d with
  | [] => [(k, c)]
  | (k', c') :: rest =>
      if String.eqb k k' then (k', c) :: rest else (k', c') :: dict_set rest k c
  end.

Definition selection_counts (v : t) : list (string * Z) :=
  fold_left (fun d target => dict_set d (id target) (count_id (id target) (selections v)))
            (targets v) [].

Definition total_selections (v : t) : Z := Z.of_nat (List.length (selections v)).

(** The percentage of one count before [round(pct, 1)]. *)
Definition selection_percentage (v : t) (count : Z) : Q :=
  if Z.ltb 0 (total_selections v)
  then inject_Z count / inject_Z (total_selections v) * 100
  else 0.

Section WithNumpy.

Variable np_sqrt : Q -> Q.
Variable np_linalg_inv : matrix -> option matrix.
Variable np_linalg_lstsq : matrix -> vector -> vector.

(** [run_calibration]; saving the file is left out. *)
Definition run_calibration (v : t) (num_points : Z) (session : nat -> collected) : t * bool :=
  let c := CalibrationTool.init num_points 30 (screen_width v) (screen_height v) POLYNOMIAL in
  match CalibrationTool.run_calibration np_linalg_lstsq c session with
  | (c', true) => (with_calibrator v (Some c'), true)
  | (_, false) => (with_calibrator v None, false)
  end.

(** [_check_gaze_on_target] *)
Fixpoint check_targets (ts : list Target) (screen_x screen_y : Z) : option string :=
  match ts with
  | [] => None
  | target :: rest =>
      if String.eqb (shape target) "circle" then
        let dist := np_sqrt (inject_Z ((screen_x - x target) ^ 2 + (screen_y - y target) ^ 2)) in
        if Qleb dist (inject_Z (width target / 2)) then Some (id target)
        else check_targets rest screen_x screen_y
      else
        let half_w := (width target / 2)%Z in
        let half_h := (height target / 2)%Z in
        if (Z.leb (x target - half_w) screen_x && Z.leb screen_x (x target + half_w)
            && Z.leb (y target - half_h) screen_y && Z.leb screen_y (y target + half_h))%bool
        then Some (id target)
        else check_targets rest screen_x screen_y
  end.

Definition _check_gaze_on_target (v : t) (screen_x screen_y : Z) : option string :=
  check_targets (targets v) screen_x screen_y.

(** One iteration of the loop of [run_session], drawing left out;
    [Ok true] is a [break]. *)
Definition session_turn (v : t) (duration : Q) (turn : Turn) : t * result bool :=
  let elapsed := current_time turn - match session_start v with Some s => s | None => 0 end in
  if Qleb duration elapsed then (v, Ok true)
  else
    match camera turn with
    | None => (v, Ok false)
    | Some frame =>
        match EyeGazeTracker.process_frame np_sqrt np_linalg_inv (tracker v) frame with
        | (tr, Raise e) => (with_tracker v tr, Raise e)
        | (tr, Ok gaze_data) =>
            let v1 := with_tracker v tr in
            match get_calibrated_screen_point v1 gaze_data with
            | Raise e => (v1, Raise e)
            | Ok screen_point =>
                let '(screen_x, screen_y, gazed_target) :=
                  match screen_point with
                  | Some (sx, sy) => (sx, sy, _check_gaze_on_target v1 sx sy)
                  | None => (0%Z, 0%Z, None)
                  end in
                match handle_dwell v1 gaze_data gazed_target (current_time turn) elapsed
                                   screen_x screen_y with
                | (v2, Raise e) => (v2, Raise e)
                | (v2, Ok _) =>
                    let (v3, stop) := handle_key v2 (key turn) in
                    (v3, Ok stop)
                end
            end
        end
    end.

(** The [while] loop, over the turns that happen. *)
Fixpoint session_loop (v : t) (duration : Q) (turns : list Turn) : t * result unit :=
  match turns with
  | [] => (v, Ok tt)
  | turn :: rest =>
      match session_turn v duration turn with
      | (v1, Raise e) => (v1, Raise e)
      | (v1, Ok true) => (v1, Ok tt)
      | (v1, Ok false) => session_loop v1 duration rest
      end
  end.

(** [run_session] up to the end of its loop: [None] is the early
    return of a tool without targets; [start] is the clock when the
    session begins. *)
Definition run_session (v : t) (duration start : Q) (turns : list Turn)
  : option (t * result unit) :=
  match targets v with
  | [] => None
  | _ :: _ =>
      let v1 := with_session_start v (Some start) in
      let v2 := with_events v1 [] in
      let v3 := with_selections v2 [] in
      let v4 := with_current_target v3 None in
      let v5 := with_dwell_start v4 None in
      Some (session_loop v5 duration turns)
  end.

End WithNumpy.

End VisualAssessmentTool.

(** ** qr_corner_detector.py and create_test_images.py *)

Module QrCornerDetector.

(** What [detect_qr_code_and_position] reads of an image: its shape and
    what [detectAndDecode] returns for it, the decoded text and the
    corner points of the code. *)
Record Image : Type := mkImage {
  img_height : Z;
  img_width : Z;
  decoded_text : string;
  points : option (list (Q * Q))
}.

(** [detect_qr_code_and_position]; [None] is an image that cannot be read. *)
Definition detect_qr_code_and_position (img : option Image)
  : option string * option string :=
  match img with
  | None => (None, None)
  | Some im =>
      match points im with
      | Some pts =>
          if negb (String.eqb (decoded_text im) "") then
            let center_x := Np.mean (map fst pts) in
            let center_y := Np.mean (map snd pts) in
            let mid_x := inject_Z (img_width im) / 2 in
            let mid_y := inject_Z (img_height im) / 2 in
            let position :=
              if Qltb center_x mid_x && Qltb center_y mid_y then "top-left"%string
              else if Qleb mid_x center_x && Qltb center_y mid_y then "top-right"%string
              else if Qltb center_x mid_x && Qleb mid_y center_y then "bottom-left"%string
              else "bottom-right"%string in
            (Some (decoded_text im), Some position)
          else (None, None)
      | None => (None, None)
      end
  end.

(** [create_test_qr_images]: where each test image places a code of
    [qr_width] x [qr_height] pixels on the 800 x 800 background. *)
Definition test_positions (qr_width qr_height : Z) : list (string * (Z * Z)) :=
  let img_size := 800%Z in
  [ ("top-left"%string, (50, 50));
    ("top-right"%string, (img_size - qr_width - 50, 50));
    ("bottom-left"%string, (50, img_size - qr_height - 50));
    ("bottom-right"%string, (img_size - qr_width - 50, img_size - qr_height - 50)) ]%Z.

End QrCornerDetector.

(** ** Exact instances of the NumPy functions

    Used to run the model on concrete inputs.  [sqrt] is exact on the
    squares of rationals (and rounds down to a multiple of the
    denominator elsewhere), [inv] is the exact inverse of a 2x2 matrix,
    [lstsq] solves the normal equations exactly, on reduced fractions,
    when the design matrix has full column rank (and returns zeros
    otherwise, where NumPy returns the minimum-norm solution). *)

Module Exact.

Definition sqrt (q : Q) : Q := Z.sqrt (Qnum q * Zpos (Qden q)) # Qden q.

Definition inv (M : matrix) : option matrix :=
  match M with
  | [[a; b]; [c; d]] =>
      let det := a * d - b * c in
      if Qeq_bool det 0 then None
      else Some [[d / det; - b / det]; [- c / det; a / det]]
  | _ => None
  end.

(** The first row whose leading coefficient is not zero, and the other rows. *)
Fixpoint pick_pivot (rows : matrix) : option (list Q * matrix) :=
  match rows with
  | [] => None
  | r :: rest =>
      if Qeq_bool (hd 0 r) 0 then
        match pick_pivot rest with
        | Some (p, others) => Some (p, r :: others)
        | None => None
        end
      else Some (r, rest)
  end.

(** Gaussian elimination on [n] unknowns; each row is the
    coefficients followed by the right-hand side. *)
Fixpoint solve (n : nat) (rows : matrix) : option vector :=
  match n with
  | O => Some []
  | S n' =>
      match pick_pivot rows with
      | Some (p :: prow, others) =>
          let reduce r := map Qred (Np.vsub (tl r) (map (fun c => hd 0 r / p * c) prow)) in
          match solve n' (map reduce others) with
          | Some xs =>
              Some (Qred ((last prow 0 - Np.vdot (removelast prow) xs) / p) :: xs)
          | None => None
          end
      | _ => None
      end
  end.

Definition lstsq (A : matrix) (b : vector) : vector :=
  let At := Np.transpose A in
  let n := List.length At in
  let normal := map (fun p => map Qred (fst p ++ [snd p]))
                    (combine (Np.matmul At A) (Np.matvec At b)) in
  match solve n normal with
  | Some xs => xs
  | None => Np.zeros n
  end.

End Exact.

(** ** Reachable filters

    The filters a program can hold: constructed by [__init__], then
    driven through [predict], [update] and [reset]; for the adaptive
    filter also through the two noise schedules, which store the noise
    they computed. *)

Inductive kalman_reachable (np_linalg_inv : matrix -> option matrix)
  : KalmanFilter2D.t -> Prop :=
| kalman_init : forall q r,
    kalman_reachable np_linalg_inv (KalmanFilter2D.init q r)
| kalman_predict : forall kf,
    kalman_reachable np_linalg_inv kf ->
    kalman_reachable np_linalg_inv (fst (KalmanFilter2D.predict kf))
| kalman_update : forall kf m,
    kalman_reachable np_linalg_inv kf ->
    kalman_reachable np_linalg_inv (fst (KalmanFilter2D.update np_linalg_inv kf m))
| kalman_reset : forall kf,
    kalman_reachable np_linalg_inv kf ->
    kalman_reachable np_linalg_inv (KalmanFilter2D.reset kf).



(** ** Concrete inputs *)

Module Demo.

(** A face mesh of [n] landmarks: the listed ones, the others at the origin. *)
Definition mesh (n : nat) (pts : list (nat * Landmark)) : list Landmark :=
  map (fun i =>
         match find (fun p => Nat.eqb (fst p) i) pts with
         | Some p => snd p
         | None => mkLandmark 0 0
         end)
      (seq 0 n).

Definition left_open : list (nat * Landmark) :=
  [ (33%nat, mkLandmark (300 # 1000) (400 # 1000));
    (133%nat, mkLandmark (340 # 1000) (430 # 1000));
    (159%nat, mkLandmark (320 # 1000) (405 # 1000));
    (145%nat, mkLandmark (320 # 1000) (425 # 1000));
    (468%nat, mkLandmark (322 # 1000) (416 # 1000)) ].

Definition right_open : list (nat * Landmark) :=
  [ (362%nat, mkLandmark (600 # 1000) (400 # 1000));
    (263%nat, mkLandmark (640 # 1000) (430 # 1000));
    (386%nat, mkLandmark (620 # 1000) (405 # 1000));
    (374%nat, mkLandmark (620 # 1000) (425 # 1000));
    (473%nat, mkLandmark (618 # 1000) (414 # 1000)) ].

(** Eyelids 2 pixels apart: a blink. *)
Definition left_closed : list (nat * Landmark) :=
  [ (33%nat, mkLandmark (300 # 1000) (400 # 1000));
    (133%nat, mkLandmark (340 # 1000) (430 # 1000));
    (159%nat, mkLandmark (320 # 1000) (414 # 1000));
    (145%nat, mkLandmark (320 # 1000) (416 # 1000));
    (468%nat, mkLandmark (322 # 1000) (416 # 1000)) ].

Definition right_closed : list (nat * Landmark) :=
  [ (362%nat, mkLandmark (600 # 1000) (400 # 1000));
    (263%nat, mkLandmark (640 # 1000) (430 # 1000));
    (386%nat, mkLandmark (620 # 1000) (414 # 1000));
    (374%nat, mkLandmark (620 # 1000) (416 # 1000));
    (473%nat, mkLandmark (618 # 1000) (414 # 1000)) ].

(** Both corners of the left eye on the same pixel. *)
Definition left_degenerate : list (nat * Landmark) :=
  [ (33%nat, mkLandmark (300 # 1000) (400 # 1000));
    (133%nat, mkLandmark (300 # 1000) (400 # 1000));
    (159%nat, mkLandmark (320 # 1000) (405 # 1000));
    (145%nat, mkLandmark (320 # 1000) (425 # 1000));
    (468%nat, mkLandmark (322 # 1000) (416 # 1000)) ].

Definition right_degenerate : list (nat * Landmark) :=
  [ (362%nat, mkLandmark (600 # 1000) (400 # 1000));
    (263%nat, mkLandmark (600 # 1000) (400 # 1000));
    (386%nat, mkLandmark (620 # 1000) (405 # 1000));
    (374%nat, mkLandmark (620 # 1000) (425 # 1000));
    (473%nat, mkLandmark (618 # 1000) (414 # 1000)) ].

Definition frame_of (landmarks : list Landmark) : Frame :=
  {| frame_width := 1000; frame_height := 1000; face_landmarks := [landmarks] |}.

Definition frame_both : Frame := frame_of (mesh 478 (left_open ++ right_open)).
Definition frame_left_only : Frame := frame_of (mesh 478 (left_open ++ right_closed)).
Definition frame_right_only : Frame := frame_of (mesh 478 (left_closed ++ right_open)).
Definition frame_degenerate_left : Frame :=
  frame_of (mesh 478 (left_degenerate ++ right_open)).
Definition frame_degenerate_both : Frame :=
  frame_of (mesh 478 (left_degenerate ++ right_degenerate)).
(** A mesh cut after landmark 199: no right eye, no iris. *)
Definition frame_short : Frame := frame_of (mesh 200 (left_open ++ right_open)).
Definition frame_no_face : Frame :=
  {| frame_width := 1000; frame_height := 1000; face_landmarks := [] |}.

(** The tracker of [run_demo]. *)
Definition tracker : EyeGazeTracker.t :=
  EyeGazeTracker.init 1920 1080 (1 # 10000) (1 # 100) (4 # 10) (25 # 10) 3 0 (3 # 10).

Definition process_frame := EyeGazeTracker.process_frame Exact.sqrt Exact.inv.

(** The [GazeData] a frame returned. *)
Definition gaze_data_of (out : EyeGazeTracker.t * result GazeData) : GazeData :=
  match snd out with
  | Ok gd => gd
  | Raise _ => GazeData_default
  end.

Definition some_or_origin (g : option Vec2) : Vec2 :=
  match g with
  | Some v => v
  | None => (0, 0)
  end.

(** Saved calibrations: an affine one, x = 960 + 400 gx and
    y = 540 + 300 gy, and a polynomial one. *)
Definition saved_affine : SavedCalibration :=
  {| saved_transform_x := [960; 400; 0];
     saved_transform_y := [540; 0; 300];
     saved_mode := Some "affine"%string |}.
Definition saved_polynomial : SavedCalibration :=
  {| saved_transform_x := [960; 400; 0; 10; 0; 0];
     saved_transform_y := [540; 0; 300; 0; 10; 0];
     saved_mode := Some "polynomial"%string |}.

(** A tool that loaded the affine calibration. *)
Definition affine_tool : CalibrationTool.t :=
  fst (CalibrationTool.load_calibration
         (CalibrationTool.init 9 30 1920 1080 POLYNOMIAL) (Some saved_affine)).

(** A five-point tool in polynomial mode, the default mode, that
    loaded the polynomial calibration. *)
Definition five_point_tool : CalibrationTool.t :=
  fst (CalibrationTool.load_calibration
         (CalibrationTool.init 5 30 1920 1080 POLYNOMIAL) (Some saved_polynomial)).

(** A five-point tool in affine mode and a session whose one sample
    per point lies exactly on x = 960 + 400 gx, y = 540 + 300 gy; the
    same session with ESC pressed at the third point. *)
Definition affine_five_tool : CalibrationTool.t :=
  CalibrationTool.init 5 1 1920 1080 AFFINE.
Definition gaze_for (p : Z * Z) : Vec2 :=
  ((inject_Z (fst p) - 960) / 400, (inject_Z (snd p) - 540) / 300).
Definition affine_session (i : nat) : collected :=
  match nth_error (CalibrationTool.calibration_points affine_five_tool) i with
  | Some p => Recorded [gaze_for p]
  | None => Cancelled
  end.
Definition cancelled_session (i : nat) : collected :=
  match i with
  | 2%nat => Cancelled
  | _ => affine_session i
  end.

(** The quick calibration of the demo tracker, and a session in
    which the one sample of each point is the expected gaze. *)
Definition quick : QuickCalibration.t := QuickCalibration.init tracker 1920 1080.
Definition exact_samples (i : nat) : list Vec2 :=
  match nth_error (QuickCalibration.cal_points quick) i with
  | Some (_, tx, ty) => [(inject_Z tx / 1920 * 2 - 1, inject_Z ty / 1080 * 2 - 1)]
  | None => []
  end.
Definition exact_session (i : nat) : collected := Recorded (exact_samples i).

(** The adaptive filter with its default parameters, and the same
    with one velocity in its history. *)
Definition adaptive : AdaptiveKalmanFilter2D.t :=
  AdaptiveKalmanFilter2D.init (1 # 10000) (1 # 100) (2 # 100) (15 # 100) 3 (3 # 10).
Definition adaptive_at (v : Q) : AdaptiveKalmanFilter2D.t :=
  AdaptiveKalmanFilter2D.with_velocity_history adaptive [v].

End Demo.

(** What [_collect_point] measures at calibration point number [i]. *)
Definition measures (qc : QuickCalibration.t) (samples : nat -> list Vec2)
           (ip : nat * (string * Z * Z)) (m : Measurement) : Prop :=
  let '(i, (_, tx, ty)) := ip in
  expected_x m = inject_Z tx / inject_Z (QuickCalibration.screen_width qc) * 2 - 1
  /\ expected_y m = inject_Z ty / inject_Z (QuickCalibration.screen_height qc) * 2 - 1
  /\ measured_x m = Np.mean (map fst (samples i))
  /\ measured_y m = Np.mean (map snd (samples i))
  /\ error_x m = expected_x m - measured_x m
  /\ error_y m = expected_y m - measured_y m.

(** * Properties *)

(** ** The first measurement bypasses the filter *)

Module KF := KalmanFilter2D.
Module AKF := AdaptiveKalmanFilter2D.

Section FilterFacts.

Variable np_sqrt : Q -> Q.
Variable np_linalg_inv : matrix -> option matrix.







End FilterFacts.



(** ** The velocity history of the adaptive filter *)

Section VelocityHistory.

Variable np_sqrt : Q -> Q.
Variable np_linalg_inv : matrix -> option matrix.






End VelocityHistory.

(** After the first measurement the filter filters: with unit noises,
    a filter started at (0, 0) answers the measurement (4, 8) with
    (3, 6) and the state [3, 6, 1, 2]. *)
Example second_update_is_filtered :
  let kf := fst (KF.update Exact.inv (KF.init 1 1) (0, 0)) in
  match KF.update Exact.inv kf (4, 8) with
  | (kf', Ok (a, b)) =>
      a == 3 /\ b == 6 /\ map Qred (KF.state kf') = [3; 6; 1; 2]
  | (_, Raise _) => False
  end.
Proof. vm_compute. repeat split. Qed.


(** ** The measurement-noise schedule of the adaptive filter *)

Lemma Qleb_true : forall a b, Qleb a b = true <-> a <= b.
Proof. intros a b. unfold Qleb. apply Qle_bool_iff. Qed.

Lemma Qleb_false : forall a b, Qleb a b = false <-> b < a.
Proof.
  intros a b. unfold Qleb. split; intros Hab.
  - apply Qnot_le_lt. intros Hle. apply Qle_bool_iff in Hle. congruence.
  - destruct (Qle_bool a b) eqn:E; [ | reflexivity ].
    apply Qle_bool_iff in E. apply Qle_not_lt in E. contradiction.
Qed.

Lemma Qltb_true : forall a b, Qltb a b = true <-> a < b.
Proof.
  intros a b. unfold Qltb. rewrite negb_true_iff. apply (Qleb_false b a).
Qed.

(** The smoothstep polynomial as the source writes it and as [3t^2 - 2t^3]. *)
Lemma smoothstep_poly : forall t : Q, t * t * (3 - 2 * t) == 3 * t ^ 2 - 2 * t ^ 3.
Proof. intros t. simpl. ring. Qed.

(** C4.  With thresholds [low < high] the multiplier of the measurement
    noise is the dwell multiplier at smoothed velocities [v <= low], the
    rapid multiplier at [v >= high], and in between the smoothstep blend
    [dwell + (3t^2 - 2t^3) (rapid - dwell)] at [t = (v - low) / (high - low)];
    the scheduled noise is the base noise times the multiplier.  With
    dwell 3.0, rapid 0.3, low 0.02 and high 0.15 the multiplier is 3 at
    v = 0.01, 0.3 at v = 0.20 and the blend at t = 1/2, which is 1.65,
    at v = 0.085. *)
Theorem measurement_noise_schedule :
  forall (np_sqrt : Q -> Q) (kf : AKF.t),
    let v := AKF._get_smoothed_velocity np_sqrt kf in
    let low := AKF.low_velocity_threshold kf in
    let high := AKF.high_velocity_threshold kf in
    let dwell := AKF.dwell_measurement_multiplier kf in
    let rapid := AKF.rapid_measurement_multiplier kf in
    let multiplier := AKF.measurement_multiplier np_sqrt kf in
    low < high ->
    (v <= low -> multiplier = dwell)
    /\ (high <= v -> multiplier = rapid)
    /\ (low < v -> v < high ->
        let t := (v - low) / (high - low) in
        multiplier == dwell + (3 * t ^ 2 - 2 * t ^ 3) * (rapid - dwell))
    /\ AKF.current_measurement_noise
         (fst (AKF._get_adaptive_measurement_noise np_sqrt kf))
       = AKF.base_measurement_noise kf * multiplier
    /\ snd (AKF._get_adaptive_measurement_noise np_sqrt kf)
       = Np.mscale (Np.eye 2) (AKF.base_measurement_noise kf * multiplier)
    /\ (dwell == 3 -> rapid == 3 # 10 -> low == 2 # 100 -> high == 15 # 100 ->
        (v == 1 # 100 -> multiplier == 3)
        /\ (v == 20 # 100 -> multiplier == 3 # 10)
        /\ (v == 85 # 1000 ->
            multiplier == 3 + (1 # 2) ^ 2 * (3 - 2 * (1 # 2)) * ((3 # 10) - 3)
            /\ multiplier == 165 # 100)).
Proof.
  intros np_sqrt kf v low high dwell rapid multiplier Hlh.
  assert (Hdwell : v <= low -> multiplier = dwell).
  { intros Hv. subst multiplier. unfold AKF.measurement_multiplier. fold v low.
    apply Qleb_true in Hv. rewrite Hv. reflexivity. }
  assert (Hrapid : high <= v -> multiplier = rapid).
  { intros Hv. subst multiplier. unfold AKF.measurement_multiplier. fold v low high.
    assert (Hnl : Qleb v low = false)
      by (apply Qleb_false; apply Qlt_le_trans with high; assumption).
    rewrite Hnl. apply Qleb_true in Hv. rewrite Hv. reflexivity. }
  assert (Hblend : low < v -> v < high ->
                   let t := (v - low) / (high - low) in
                   multiplier == dwell + (3 * t ^ 2 - 2 * t ^ 3) * (rapid - dwell)).
  { intros Hl Hh t. subst multiplier. unfold AKF.measurement_multiplier.
    fold v low high dwell rapid.
    apply Qleb_false in Hl. apply Qleb_false in Hh. rewrite Hl, Hh.
    cbv zeta. fold t. rewrite (smoothstep_poly t). reflexivity. }
  split; [exact Hdwell | ]. split; [exact Hrapid | ]. split; [exact Hblend | ].
  split; [reflexivity | ]. split; [reflexivity | ].
  intros Ed Er El Eh.
  split; [ | split ].
  - intros Ev. rewrite Hdwell; [exact Ed | ]. rewrite Ev, El. discriminate.
  - intros Ev. rewrite Hrapid; [exact Er | ]. rewrite Ev, Eh. discriminate.
  - intros Ev.
    assert (Hl : low < v) by (rewrite Ev, El; reflexivity).
    assert (Hh : v < high) by (rewrite Ev, Eh; reflexivity).
    specialize (Hblend Hl Hh). cbv zeta in Hblend.
    rewrite Ev, El, Eh, Ed, Er in Hblend.
    split; rewrite Hblend; reflexivity.
Qed.

(** ** One frame of the tracker *)

Module EGT := EyeGazeTracker.

Section FrameFacts.

Variable np_sqrt : Q -> Q.
Variable np_linalg_inv : matrix -> option matrix.

(** The two landmark readers catch their only exception. *)
Lemma detect_blink_total : forall landmarks frame_height,
  exists blinks, EGT._detect_blink landmarks frame_height = Ok blinks.
Proof.
  intros landmarks fh. unfold EGT._detect_blink, py_index.
  repeat (cbn [bind try_except_IndexError];
          match goal with
          | |- context [nth_error ?l ?i] => destruct (nth_error l i)
          end);
    cbn [bind try_except_IndexError]; eauto.
Qed.

Lemma get_iris_position_total :
  forall tr landmarks outer_idx inner_idx iris_idx fw fh,
  exists r, EGT._get_iris_position np_sqrt tr landmarks outer_idx inner_idx iris_idx fw fh
            = Ok r.
Proof.
  intros. unfold EGT._get_iris_position, py_index.
  repeat (cbn [bind try_except_IndexError];
          match goal with
          | |- context [nth_error ?l ?i] => destruct (nth_error l i)
          | |- context [if ?c then _ else _] => destruct c
          end);
    cbn [bind try_except_IndexError]; eauto.
Qed.

(** An [update] raises nothing but the [LinAlgError] of [np.linalg.inv]. *)
Lemma kalman_update_raises : forall kf m kf' e,
  KF.update np_linalg_inv kf m = (kf', Raise e) -> e = LinAlgError.
Proof.
  intros kf m kf' e. unfold KF.update.
  destruct (negb (KF.initialized kf)); [ intros Hu; inversion Hu | ].
  cbv zeta. destruct (np_linalg_inv _); intros Hu; inversion Hu; reflexivity.
Qed.

End FrameFacts.

(** Case analysis of one frame: the blink flags, the two gaze
    estimates and the filter updates. *)
Ltac frame_simpl :=
  cbn [fst snd negb
       left_gaze right_gaze combined_gaze screen_point
       left_iris_center right_iris_center confidence GazeData_default
       EGT.with_left EGT.with_right EGT.with_combined EGT.with_screen_point
       EGT.with_left_kalman EGT.with_right_kalman EGT.with_combined_kalman
       EGT.with_prev_screen_point
       EGT.left_kalman EGT.right_kalman EGT.combined_kalman EGT.prev_screen_point
       EGT.screen_width EGT.screen_height EGT.smoothing_factor
       EGT.sensitivity_x EGT.sensitivity_y EGT.offset_x EGT.offset_y] in *.

Ltac frame_unfold :=
  unfold EGT.process_frame, EGT.then_, EGT.left_eye, EGT.right_eye,
         EGT.combine_eyes, EGT.map_to_screen.

Ltac frame_destruct np_sqrt np_linalg_inv :=
  repeat (frame_simpl;
          match goal with
          | |- context [face_landmarks ?f] =>
              let E := fresh "Eface" in destruct (face_landmarks f) eqn:E
          | |- context [EGT._detect_blink ?l ?h] =>
              let E := fresh "Eblink" in
              let b := fresh "blinks" in
              destruct (detect_blink_total l h) as [b E]; rewrite E; destruct b as [[|] [|]]
          | |- context [EGT._get_iris_position np_sqrt ?t ?l ?o ?i ?c ?w ?h] =>
              let E := fresh "Eiris" in
              let r := fresh "r" in
              destruct (get_iris_position_total np_sqrt t l o i c w h) as [r E];
              rewrite E; destruct r as [[?g|] ?iris]
          | |- context [KF.update np_linalg_inv ?k ?m] =>
              let E := fresh "Eupd" in
              destruct (KF.update np_linalg_inv k m) as [?kf [?v|?e]] eqn:E;
              [ | apply kalman_update_raises in E ]
          | |- context [match ?p with Some _ => _ | None => _ end] =>
              destruct p eqn:?
          end);
  frame_simpl.

Ltac frame_cases np_sqrt np_linalg_inv :=
  frame_unfold; frame_destruct np_sqrt np_linalg_inv.

(** C5.  A frame that is processed to the end yields: with both eyes
    filtered, the combined filter's [update] of their average and
    confidence 1.0; with one eye, that eye's vector itself, the
    combined filter untouched, and confidence 0.7; with neither, no
    combined gaze, no screen point, confidence 0.0 and the stored
    screen point as it was.  The only exception a frame can raise is
    the [LinAlgError] of a filter update. *)
Theorem combined_gaze_and_confidence :
  forall (np_sqrt : Q -> Q) (np_linalg_inv : matrix -> option matrix)
         (tr : EGT.t) (frame : Frame),
    match EGT.process_frame np_sqrt np_linalg_inv tr frame with
    | (tr', Ok gd) =>
        match left_gaze gd, right_gaze gd with
        | Some l, Some r =>
            exists c,
              KF.update np_linalg_inv (EGT.combined_kalman tr)
                        ((fst l + fst r) / 2, (snd l + snd r) / 2)
              = (EGT.combined_kalman tr', Ok c)
              /\ combined_gaze gd = Some c
              /\ confidence gd = 1
        | Some v, None | None, Some v =>
            combined_gaze gd = Some v
            /\ confidence gd = 7 # 10
            /\ EGT.combined_kalman tr' = EGT.combined_kalman tr
        | None, None =>
            combined_gaze gd = None
            /\ screen_point gd = None
            /\ confidence gd = 0
            /\ EGT.combined_kalman tr' = EGT.combined_kalman tr
            /\ EGT.prev_screen_point tr' = EGT.prev_screen_point tr
        end
    | (_, Raise e) => e = LinAlgError
    end.
Proof.
  intros np_sqrt np_linalg_inv tr frame.
  frame_cases np_sqrt np_linalg_inv; auto.
  all: eexists; split; [ eassumption | auto ].
Qed.


(** A degenerate eye yields no estimate. *)
Lemma get_iris_position_degenerate :
  forall np_sqrt tr landmarks outer_idx inner_idx iris_idx fw fh outer inner,
    nth_error landmarks outer_idx = Some outer ->
    nth_error landmarks inner_idx = Some inner ->
    EGT.eye_width_px np_sqrt outer inner fw fh < 1 ->
    EGT._get_iris_position np_sqrt tr landmarks outer_idx inner_idx iris_idx fw fh
    = Ok (None, None).
Proof.
  intros np_sqrt tr landmarks oi ii ci fw fh outer inner Ho Hi Hw.
  unfold EGT._get_iris_position, py_index. rewrite Ho, Hi.
  cbn [bind]. apply Qltb_true in Hw. rewrite Hw. reflexivity.
Qed.

(** C8.  When the corners of an eye are less than one pixel apart,
    [_get_iris_position] returns [(None, None)] for that eye without
    raising, the frame carries no gaze vector for that eye, and that
    eye's Kalman filter is after the frame what it was before. *)
Theorem degenerate_eye_is_skipped :
  forall (np_sqrt : Q -> Q) (np_linalg_inv : matrix -> option matrix)
         (tr : EGT.t) (frame : Frame) (landmarks : list Landmark)
         (others : list (list Landmark)),
    face_landmarks frame = landmarks :: others ->
    let out := EGT.process_frame np_sqrt np_linalg_inv tr frame in
    (forall outer inner,
        nth_error landmarks EGT.LEFT_EYE_OUTER = Some outer ->
        nth_error landmarks EGT.LEFT_EYE_INNER = Some inner ->
        EGT.eye_width_px np_sqrt outer inner (frame_width frame) (frame_height frame) < 1 ->
        EGT._get_iris_position np_sqrt tr landmarks EGT.LEFT_EYE_OUTER EGT.LEFT_EYE_INNER
                               EGT.LEFT_IRIS_CENTER (frame_width frame) (frame_height frame)
        = Ok (None, None)
        /\ EGT.left_kalman (fst out) = EGT.left_kalman tr
        /\ (forall gd, snd out = Ok gd -> left_gaze gd = None))
    /\
    (forall outer inner,
        nth_error landmarks EGT.RIGHT_EYE_OUTER = Some outer ->
        nth_error landmarks EGT.RIGHT_EYE_INNER = Some inner ->
        EGT.eye_width_px np_sqrt outer inner (frame_width frame) (frame_height frame) < 1 ->
        EGT._get_iris_position np_sqrt tr landmarks EGT.RIGHT_EYE_OUTER EGT.RIGHT_EYE_INNER
                               EGT.RIGHT_IRIS_CENTER (frame_width frame) (frame_height frame)
        = Ok (None, None)
        /\ EGT.right_kalman (fst out) = EGT.right_kalman tr
        /\ (forall gd, snd out = Ok gd -> right_gaze gd = None)).
Proof.
  intros np_sqrt np_linalg_inv tr frame landmarks others Hface out. subst out.
  split; intros outer inner Ho Hi Hw.
  - assert (Hdeg : forall tr0,
               EGT._get_iris_position np_sqrt tr0 landmarks EGT.LEFT_EYE_OUTER
                 EGT.LEFT_EYE_INNER EGT.LEFT_IRIS_CENTER (frame_width frame)
                 (frame_height frame) = Ok (None, None))
      by (intros tr0; eapply get_iris_position_degenerate; eassumption).
    split; [apply Hdeg | ].
    frame_unfold. rewrite Hface.
    frame_destruct np_sqrt np_linalg_inv;
      try (match goal with
           | E : EGT._get_iris_position _ _ _ EGT.LEFT_EYE_OUTER _ _ _ _ = Ok (Some _, _) |- _ =>
               rewrite Hdeg in E; discriminate E
           end);
      (split; [reflexivity | intros gd0 Hgd; inversion Hgd; subst; reflexivity ]).
  - assert (Hdeg : forall tr0,
               EGT._get_iris_position np_sqrt tr0 landmarks EGT.RIGHT_EYE_OUTER
                 EGT.RIGHT_EYE_INNER EGT.RIGHT_IRIS_CENTER (frame_width frame)
                 (frame_height frame) = Ok (None, None))
      by (intros tr0; eapply get_iris_position_degenerate; eassumption).
    split; [apply Hdeg | ].
    frame_unfold. rewrite Hface.
    frame_destruct np_sqrt np_linalg_inv;
      try (match goal with
           | E : EGT._get_iris_position _ _ _ EGT.RIGHT_EYE_OUTER _ _ _ _ = Ok (Some _, _) |- _ =>
               rewrite Hdeg in E; discriminate E
           end);
      (split; [reflexivity | intros gd0 Hgd; inversion Hgd; subst; reflexivity ]).
Qed.

(** C10.  When one of the four eyelid landmarks is out of range,
    [_detect_blink] returns [(False, False)]: the frame is processed
    with both eyes taken as open, so a gaze estimate is asked for each
    eye, and what the left estimate yields is fed to the left filter. *)
Theorem missing_eyelid_landmark_reads_as_open :
  forall (np_sqrt : Q -> Q) (np_linalg_inv : matrix -> option matrix)
         (tr : EGT.t) (frame : Frame) (landmarks : list Landmark)
         (others : list (list Landmark)) (i : nat),
    face_landmarks frame = landmarks :: others ->
    In i [EGT.LEFT_EYE_TOP; EGT.LEFT_EYE_BOTTOM; EGT.RIGHT_EYE_TOP; EGT.RIGHT_EYE_BOTTOM] ->
    nth_error landmarks i = None ->
    let fw := frame_width frame in
    let fh := frame_height frame in
    let out := EGT.process_frame np_sqrt np_linalg_inv tr frame in
    EGT._detect_blink landmarks fh = Ok (false, false)
    /\ out = EGT.then_ (EGT.left_eye np_sqrt np_linalg_inv false landmarks fw fh)
               (EGT.then_ (EGT.right_eye np_sqrt np_linalg_inv false landmarks fw fh)
                  (EGT.then_ (EGT.combine_eyes np_linalg_inv) EGT.map_to_screen))
               tr GazeData_default
    /\ (forall g iris,
          EGT._get_iris_position np_sqrt tr landmarks EGT.LEFT_EYE_OUTER EGT.LEFT_EYE_INNER
                                 EGT.LEFT_IRIS_CENTER fw fh = Ok (Some g, iris) ->
          EGT.left_kalman (fst out) = fst (KF.update np_linalg_inv (EGT.left_kalman tr) g)
          /\ (forall gd, snd out = Ok gd ->
                exists filtered,
                  snd (KF.update np_linalg_inv (EGT.left_kalman tr) g) = Ok filtered
                  /\ left_gaze gd = Some filtered)).
Proof.
  intros np_sqrt np_linalg_inv tr frame landmarks others i Hface Hin Hnone fw fh out.
  assert (Hblink : EGT._detect_blink landmarks fh = Ok (false, false)).
  { unfold EGT._detect_blink, py_index.
    repeat (cbn [bind try_except_IndexError];
            match goal with
            | |- context [nth_error landmarks ?j] =>
                destruct (nth_error landmarks j) eqn:?
            end);
      cbn [bind try_except_IndexError]; try reflexivity.
    exfalso. cbn [In] in Hin.
    destruct Hin as [<- | [<- | [<- | [<- | []]]]]; congruence. }
  split; [exact Hblink | ].
  assert (Hout : out = EGT.then_ (EGT.left_eye np_sqrt np_linalg_inv false landmarks fw fh)
               (EGT.then_ (EGT.right_eye np_sqrt np_linalg_inv false landmarks fw fh)
                  (EGT.then_ (EGT.combine_eyes np_linalg_inv) EGT.map_to_screen))
               tr GazeData_default).
  { subst out fw fh. unfold EGT.process_frame. rewrite Hface, Hblink. reflexivity. }
  split; [exact Hout | ].
  intros g iris Hiris. rewrite Hout. clear Hout out.
  unfold EGT.then_, EGT.left_eye. cbn [negb]. cbv beta. rewrite Hiris.
  destruct (KF.update np_linalg_inv (EGT.left_kalman tr) g) as [kf [v | e]] eqn:Eupd;
    [ | cbn [fst snd]; split; [reflexivity | intros gd Hgd; discriminate Hgd] ].
  unfold EGT.right_eye, EGT.combine_eyes, EGT.map_to_screen.
  frame_destruct np_sqrt np_linalg_inv;
    (split; [reflexivity | ]); intros gd Hgd; inversion Hgd; subst; frame_simpl;
    exists v; split; reflexivity.
Qed.

(** ** The frame theorems on concrete frames *)

(** Both eyes open on a fresh tracker: the average (0, 0.3) goes
    through the combined filter, confidence 1.0, screen point (960, 702). *)
Example frame_with_both_eyes :
  let gd := Demo.gaze_data_of (Demo.process_frame Demo.tracker Demo.frame_both) in
  (confidence gd, screen_point gd) = (1, Some (960, 702)%Z)
  /\ fst (Demo.some_or_origin (combined_gaze gd)) == 0
  /\ snd (Demo.some_or_origin (combined_gaze gd)) == 3 # 10.
Proof. vm_compute. repeat split. Qed.

(** The right eye blinks: the left vector (0.2, 0.54) is the combined gaze. *)
Example frame_with_left_eye_only :
  let gd := Demo.gaze_data_of (Demo.process_frame Demo.tracker Demo.frame_left_only) in
  (confidence gd, screen_point gd, right_gaze gd) = (7 # 10, Some (1152, 831)%Z, None)
  /\ combined_gaze gd = left_gaze gd
  /\ fst (Demo.some_or_origin (combined_gaze gd)) == 2 # 10
  /\ snd (Demo.some_or_origin (combined_gaze gd)) == 54 # 100.
Proof. vm_compute. repeat split. Qed.

(** A mesh without right eyelid and iris landmarks: the left gaze
    (0, 0.3) is estimated from the eye contour, the right eye is not. *)
Example frame_with_short_mesh :
  let gd := Demo.gaze_data_of (Demo.process_frame Demo.tracker Demo.frame_short) in
  (confidence gd, screen_point gd, right_gaze gd) = (7 # 10, Some (960, 702)%Z, None)
  /\ fst (Demo.some_or_origin (left_gaze gd)) == 0
  /\ snd (Demo.some_or_origin (left_gaze gd)) == 3 # 10.
Proof. vm_compute. repeat split. Qed.

(** No face: nothing is estimated. *)
Example frame_without_face :
  Demo.process_frame Demo.tracker Demo.frame_no_face = (Demo.tracker, Ok GazeData_default).
Proof. reflexivity. Qed.

(** The schedule at the three velocities of the specification. *)
Lemma measurement_noise_schedule_witness :
  AKF.measurement_multiplier Exact.sqrt (Demo.adaptive_at (1 # 100)) == 3
  /\ AKF.measurement_multiplier Exact.sqrt (Demo.adaptive_at (20 # 100)) == 3 # 10
  /\ AKF.measurement_multiplier Exact.sqrt (Demo.adaptive_at (85 # 1000)) == 165 # 100.
Proof.
  refine (conj _ (conj _ _)).
  - pose proof (measurement_noise_schedule Exact.sqrt (Demo.adaptive_at (1 # 100))) as H.
    cbv zeta in H. specialize (H eq_refl).
    destruct H as (_ & _ & _ & _ & _ & H).
    apply H; reflexivity.
  - pose proof (measurement_noise_schedule Exact.sqrt (Demo.adaptive_at (20 # 100))) as H.
    cbv zeta in H. specialize (H eq_refl).
    destruct H as (_ & _ & _ & _ & _ & H).
    apply H; reflexivity.
  - pose proof (measurement_noise_schedule Exact.sqrt (Demo.adaptive_at (85 # 1000))) as H.
    cbv zeta in H. specialize (H eq_refl).
    destruct H as (_ & _ & _ & _ & _ & H).
    apply H; reflexivity.
Defined.


(** A frame whose eyes both have their corners on one pixel. *)
Lemma degenerate_eye_is_skipped_witness :
  let out := Demo.process_frame Demo.tracker Demo.frame_degenerate_both in
  EGT.left_kalman (fst out) = EGT.left_kalman Demo.tracker
  /\ EGT.right_kalman (fst out) = EGT.right_kalman Demo.tracker
  /\ left_gaze (Demo.gaze_data_of out) = None
  /\ right_gaze (Demo.gaze_data_of out) = None.
Proof.
  intros out.
  destruct (degenerate_eye_is_skipped Exact.sqrt Exact.inv Demo.tracker
              Demo.frame_degenerate_both _ _ eq_refl) as [HL HR].
  destruct (HL (mkLandmark (300 # 1000) (400 # 1000)) (mkLandmark (300 # 1000) (400 # 1000))
               eq_refl eq_refl eq_refl) as (_ & HLk & HLg).
  destruct (HR (mkLandmark (600 # 1000) (400 # 1000)) (mkLandmark (600 # 1000) (400 # 1000))
               eq_refl eq_refl eq_refl) as (_ & HRk & HRg).
  assert (Hout : snd out = Ok (Demo.gaze_data_of out)) by (vm_compute; reflexivity).
  refine (conj HLk (conj HRk (conj _ _))).
  - apply HLg. exact Hout.
  - apply HRg. exact Hout.
Defined.


(** The mesh cut after landmark 199 has no right eyelid: both eyes
    read as open, and the left eye is estimated from the eye contour. *)
Lemma missing_eyelid_landmark_reads_as_open_witness :
  let landmarks := Demo.mesh 200 (Demo.left_open ++ Demo.right_open) in
  let out := Demo.process_frame Demo.tracker Demo.frame_short in
  EGT._detect_blink landmarks 1000 = Ok (false, false)
  /\ (exists filtered, left_gaze (Demo.gaze_data_of out) = Some filtered).
Proof.
  intros landmarks out.
  destruct (missing_eyelid_landmark_reads_as_open Exact.sqrt Exact.inv Demo.tracker
              Demo.frame_short landmarks [] EGT.RIGHT_EYE_TOP eq_refl
              (or_intror (or_intror (or_introl eq_refl))) eq_refl)
    as (Hblink & _ & Hleft).
  split; [exact Hblink | ].
  set (estimate := EGT._get_iris_position Exact.sqrt Demo.tracker landmarks
                     EGT.LEFT_EYE_OUTER EGT.LEFT_EYE_INNER EGT.LEFT_IRIS_CENTER 1000 1000).
  assert (Hiris : estimate
                  = Ok (Some (Demo.some_or_origin
                                (match estimate with Ok (g, _) => g | Raise _ => None end)),
                        match estimate with Ok (_, c) => c | Raise _ => None end))
    by (vm_compute; reflexivity).
  destruct (Hleft _ _ Hiris) as [_ Hgd].
  assert (Hout : snd out = Ok (Demo.gaze_data_of out)) by (vm_compute; reflexivity).
  destruct (Hgd _ Hout) as (filtered & Hupd & Hgaze).
  exists filtered. exact Hgaze.
Defined.

(** ** The calibration tool *)

Module CT := CalibrationTool.






(** With fewer points than the mode needs, the fit returns without
    touching the tool. *)
Lemma compute_calibration_refuses : forall np_linalg_lstsq (c : CT.t),
  (List.length (CT.calibration_data c)
   < match CT.mode c with POLYNOMIAL => 6 | AFFINE => 4 end)%nat ->
  CT._compute_calibration np_linalg_lstsq c = (c, Ok tt).
Proof.
  intros lstsq c Hlt. unfold CT._compute_calibration.
  apply Nat.ltb_lt in Hlt. rewrite Hlt. reflexivity.
Qed.

(** C3, at the input where the code departs from it.  A five-point
    tool in polynomial mode, holding a loaded model, whose five points
    are all recorded: the fit finds 5 < 6 points and leaves
    [transform_x], [transform_y] and [transform_matrix] as they were,
    yet [run_calibration] returns [True]. *)
Theorem run_calibration_reports_success_without_fit :
  forall (np_linalg_lstsq : matrix -> vector -> vector) (samples : nat -> list Vec2),
    let c := Demo.five_point_tool in
    let out := CT.run_calibration np_linalg_lstsq c (fun i => Recorded (samples i)) in
    CT.mode c = POLYNOMIAL
    /\ List.length (CT.calibration_data (fst out)) = 5%nat
    /\ CT.transform_x (fst out) = CT.transform_x c
    /\ CT.transform_y (fst out) = CT.transform_y c
    /\ CT.transform_matrix (fst out) = CT.transform_matrix c
    /\ snd out = true.
Proof.
  intros lstsq samples c out. subst out c.
  unfold CT.run_calibration. cbn [CT.collect_points CT._collect_point_data
    CT.calibration_points CT.with_calibration_data Demo.five_point_tool].
  repeat split; reflexivity.
Qed.

(** With enough points the fit replaces the model: five points in
    affine mode on x = 960 + 400 gx, y = 540 + 300 gy recover these
    coefficients.  A cancelled session returns [False] and keeps the
    loaded model. *)
Example affine_fit_recovers_coefficients :
  let out := CT.run_calibration Exact.lstsq Demo.affine_five_tool Demo.affine_session in
  snd out = true
  /\ CT.transform_x (fst out) = Some [960; 400; 0]
  /\ CT.transform_y (fst out) = Some [540; 0; 300]
  /\ CT.gaze_to_screen (fst out) (0, 0) = Ok (960, 540)%Z.
Proof. vm_compute. repeat split. Qed.

Example cancelled_calibration_keeps_model :
  let out := CT.run_calibration Exact.lstsq Demo.affine_tool Demo.cancelled_session in
  snd out = false
  /\ CT.transform_x (fst out) = CT.transform_x Demo.affine_tool
  /\ CT.transform_y (fst out) = CT.transform_y Demo.affine_tool
  /\ CT.transform_matrix (fst out) = CT.transform_matrix Demo.affine_tool.
Proof. vm_compute. repeat split. Qed.

(** When every point is recorded, the loop of [run_calibration]
    appends one entry per point and touches neither mode nor model. *)
Lemma collect_points_all_recorded :
  forall (session : nat -> collected) (points : list (Z * Z)) (c : CT.t) (i : nat),
    (forall k, (k < List.length points)%nat -> exists s, session (i + k)%nat = Recorded s) ->
    exists c',
      CT.collect_points c points i session = (c', Ok true)
      /\ List.length (CT.calibration_data c')
         = (List.length (CT.calibration_data c) + List.length points)%nat
      /\ CT.mode c' = CT.mode c
      /\ CT.transform_x c' = CT.transform_x c
      /\ CT.transform_y c' = CT.transform_y c
      /\ CT.transform_matrix c' = CT.transform_matrix c.
Proof.
  intros session points. induction points as [ | point rest IH ]; intros c i Hrec.
  - exists c. cbn. repeat split; lia.
  - destruct (Hrec 0%nat) as [s Hs]; [cbn; lia | ].
    rewrite Nat.add_0_r in Hs.
    cbn [CT.collect_points]. rewrite Hs. cbn [CT._collect_point_data].
    destruct (IH (CT.with_calibration_data c (CT.calibration_data c ++ [(point, s)])) (S i))
      as (c' & Hc & Hlen & Hmode & Hx & Hy & Hm).
    { intros k Hk. replace (S i + k)%nat with (i + S k)%nat by lia.
      apply Hrec. cbn. lia. }
    exists c'. split; [exact Hc | ].
    cbn in Hlen, Hmode, Hx, Hy, Hm. rewrite length_app in Hlen. cbn in Hlen.
    repeat split; try assumption. cbn. lia.
Qed.

(** For every tool: when all points are recorded and they are fewer
    than the mode needs, [run_calibration] keeps the stored model and
    returns [True]. *)
Lemma run_calibration_keeps_model_and_succeeds :
  forall np_linalg_lstsq (c : CT.t) (session : nat -> collected),
    (forall k, (k < List.length (CT.calibration_points c))%nat ->
               exists s, session k = Recorded s) ->
    (List.length (CT.calibration_points c)
     < match CT.mode c with POLYNOMIAL => 6 | AFFINE => 4 end)%nat ->
    let out := CT.run_calibration np_linalg_lstsq c session in
    snd out = true
    /\ CT.transform_x (fst out) = CT.transform_x c
    /\ CT.transform_y (fst out) = CT.transform_y c
    /\ CT.transform_matrix (fst out) = CT.transform_matrix c.
Proof.
  intros lstsq c session Hrec Hfew out. subst out. unfold CT.run_calibration.
  destruct (collect_points_all_recorded session
              (CT.calibration_points (CT.with_calibration_data c []))
              (CT.with_calibration_data c []) 0%nat Hrec)
    as (c' & Hc & Hlen & Hmode & Hx & Hy & Hm).
  rewrite Hc. rewrite compute_calibration_refuses.
  - cbn in *. auto.
  - rewrite Hlen, Hmode. cbn in *. exact Hfew.
Qed.

(** ** The quick offset calibration *)

Module QC := QuickCalibration.

Lemma clip_in_range : forall x lo hi,
  lo <= x -> x <= hi -> Np.clip x lo hi == x.
Proof.
  intros x lo hi Hlo Hhi. unfold Np.clip, Np.maximum, Np.minimum.
  destruct (Qle_bool x lo) eqn:E1.
  - apply Qle_bool_iff in E1. assert (Hx : lo == x) by (apply Qle_antisym; assumption).
    destruct (Qle_bool lo hi) eqn:E2; [exact Hx | ].
    assert (Hle : lo <= hi) by (rewrite Hx; exact Hhi).
    apply Qle_bool_iff in Hle. congruence.
  - apply Qle_bool_iff in Hhi. rewrite Hhi. reflexivity.
Qed.

Lemma sum_of_zeros : forall v : vector,
  Forall (fun e => e == 0) v -> Np.sum v == 0.
Proof.
  intros v Hv. induction Hv as [ | e v He _ IH ]; cbn; [reflexivity | ].
  rewrite He, IH. reflexivity.
Qed.

Lemma mean_of_zeros : forall v : vector,
  Forall (fun e => e == 0) v -> Np.mean v == 0.
Proof.
  intros v Hv. unfold Np.mean. rewrite (sum_of_zeros v Hv).
  unfold Qdiv. apply Qmult_0_l.
Qed.

Lemma collect_all_recorded :
  forall (qc : QC.t) (session : nat -> collected) (samples : nat -> list Vec2),
    (0 < QC.screen_width qc)%Z ->
    (0 < QC.screen_height qc)%Z ->
    forall (points : list (string * Z * Z)) (i : nat),
      (forall k, (k < List.length points)%nat ->
                 session (i + k)%nat = Recorded (samples (i + k)%nat)) ->
      exists ms,
        QC.collect_all qc points i session = Ok (Some ms)
        /\ Forall2 (measures qc samples) (combine (seq i (List.length points)) points) ms.
Proof.
  intros qc session samples Hw Hh points.
  induction points as [ | [[nm tx] ty] rest IH ]; intros i Hrec.
  - exists []. split; [reflexivity | constructor].
  - pose proof (Hrec 0%nat) as Hs. rewrite Nat.add_0_r in Hs.
    destruct (IH (S i)) as (ms & Hms & Hall).
    { intros k Hk. replace (S i + k)%nat with (i + S k)%nat by lia.
      apply Hrec. cbn. lia. }
    cbn [QC.collect_all]. rewrite Hs by (cbn; lia).
    unfold QC._collect_point, py_truediv.
    destruct (Z.eqb_spec (QC.screen_width qc) 0) as [E | _]; [lia | ].
    destruct (Z.eqb_spec (QC.screen_height qc) 0) as [E | _]; [lia | ].
    cbn [bind]. rewrite Hms. cbn [bind option_map].
    eexists. split; [reflexivity | ].
    cbn [List.length seq combine]. constructor; [ | exact Hall ].
    cbn. repeat split; reflexivity.
Qed.

Lemma measures_error : forall qc samples l ms,
  Forall2 (measures qc samples) l ms ->
  Forall (fun m => error_x m = expected_x m - measured_x m
                   /\ error_y m = expected_y m - measured_y m) ms.
Proof.
  intros qc samples l ms Hall.
  induction Hall as [ | [i [[nm tx] ty]] m l ms Hm _ IH ]; constructor; [ | exact IH ].
  destruct Hm as (_ & _ & _ & _ & Hx & Hy). split; assumption.
Qed.

Lemma clip_sum_of_nothing : forall o e,
  e == 0 -> -1 <= o -> o <= 1 -> Np.clip (o + e) (-1) 1 == o.
Proof.
  intros o e He Hlo Hhi.
  assert (Hoe : o + e == o) by (rewrite He; ring).
  rewrite clip_in_range; [exact Hoe | rewrite Hoe; exact Hlo | rewrite Hoe; exact Hhi].
Qed.

(** C7.  When the five points are all recorded, the quick calibration
    returns the tracker's current offset plus the mean over the five
    points of [expected - measured], per axis, clamped to [-1, 1], where
    [expected = (target / dimension) * 2 - 1] and [measured] is the mean
    of the point's samples.  When every point's measured gaze equals
    its expected value and the current offsets lie in [-1, 1], the
    returned offsets equal the current ones. *)
Theorem quick_offsets_add_mean_error :
  forall (tracker : EGT.t) (screen_width screen_height : Z)
         (session : nat -> collected) (samples : nat -> list Vec2),
    let qc := QC.init tracker screen_width screen_height in
    (0 < screen_width)%Z ->
    (0 < screen_height)%Z ->
    (forall i, (i < 5)%nat -> session i = Recorded (samples i)) ->
    exists ms,
      List.length ms = 5%nat
      /\ Forall2 (measures qc samples) (combine (seq 0 5) (QC.cal_points qc)) ms
      /\ QC.run qc session
         = (Np.clip (EGT.offset_x tracker + Np.mean (map error_x ms)) (-1) 1,
            Np.clip (EGT.offset_y tracker + Np.mean (map error_y ms)) (-1) 1)
      /\ (Forall (fun m => measured_x m == expected_x m
                           /\ measured_y m == expected_y m) ms ->
          -1 <= EGT.offset_x tracker <= 1 ->
          -1 <= EGT.offset_y tracker <= 1 ->
          fst (QC.run qc session) == EGT.offset_x tracker
          /\ snd (QC.run qc session) == EGT.offset_y tracker).
Proof.
  intros tracker w h session samples qc Hw Hh Hrec.
  destruct (collect_all_recorded qc session samples Hw Hh (QC.cal_points qc) 0%nat)
    as (ms & Hms & Hall).
  { intros k Hk. apply Hrec. exact Hk. }
  assert (Hrun : QC.run qc session
                 = (Np.clip (EGT.offset_x tracker + Np.mean (map error_x ms)) (-1) 1,
                    Np.clip (EGT.offset_y tracker + Np.mean (map error_y ms)) (-1) 1)).
  { unfold QC.run. rewrite Hms. reflexivity. }
  exists ms. split; [ | split; [exact Hall | split; [exact Hrun | ]]].
  - apply Forall2_length in Hall. rewrite <- Hall. reflexivity.
  - intros Hexact [Hxl Hxh] [Hyl Hyh]. rewrite Hrun. cbn [fst snd].
    pose proof (measures_error _ _ _ _ Hall) as Herr.
    assert (Hzero : Forall (fun m => error_x m == 0 /\ error_y m == 0) ms).
    { rewrite Forall_forall in *. intros m Hin.
      destruct (Herr m Hin) as [Ex Ey]. destruct (Hexact m Hin) as [Mx My].
      rewrite Ex, Ey, Mx, My. split; ring. }
    split; apply clip_sum_of_nothing; try assumption; apply mean_of_zeros;
      rewrite Forall_map; rewrite Forall_forall in *; intros m Hin; apply (Hzero m Hin).
Qed.

(** The demo tracker (offsets 0 and 0.3) with every point measured
    where it is expected: the offsets come back unchanged. *)
Lemma quick_offsets_add_mean_error_witness :
  fst (QC.run Demo.quick Demo.exact_session) == 0
  /\ snd (QC.run Demo.quick Demo.exact_session) == 3 # 10.
Proof.
  destruct (quick_offsets_add_mean_error Demo.tracker 1920 1080
              Demo.exact_session Demo.exact_samples eq_refl eq_refl
              (fun i _ => eq_refl))
    as (ms & Hlen & Hall & Hrun & Hsame).
  apply Hsame; [ | split; discriminate | split; discriminate ].
  cbn [seq combine QC.cal_points QC.init] in Hall.
  repeat match goal with
         | H : Forall2 _ (_ :: _) _ |- _ => inversion H; subst; clear H
         | H : Forall2 _ [] _ |- _ => inversion H; subst; clear H
         end.
  repeat constructor;
    match goal with
    | H : measures _ _ (_, _) ?m |- context [measured_x ?m] =>
        destruct H as (Ex & Ey & Mx & My & _); rewrite Ex, Mx; reflexivity
    | H : measures _ _ (_, _) ?m |- context [measured_y ?m] =>
        destruct H as (Ex & Ey & Mx & My & _); rewrite Ey, My; reflexivity
    end.
Defined.

(** * Further properties of the tracker *)

(** ** Truncation and clipping *)

Lemma py_int_between : forall (q : Q) (a b : Z),
  inject_Z a <= q -> q <= inject_Z b -> (a <= py_int q <= b)%Z.
Proof.
  intros [n d] a b Ha Hb. unfold py_int, Qle in *. cbn in *.
  pose proof (Z.quot_rem' n (Zpos d)) as Hqr.
  assert (Hrem : (- Zpos d < Z.rem n (Zpos d) < Zpos d)%Z).
  { pose proof (Z.rem_bound_abs n (Zpos d) ltac:(lia)). lia. }
  split; nia.
Qed.

Lemma clip_between : forall x lo hi, lo <= hi -> lo <= Np.clip x lo hi /\ Np.clip x lo hi <= hi.
Proof.
  intros x lo hi Hlh. unfold Np.clip, Np.maximum, Np.minimum.
  destruct (Qle_bool x lo) eqn:E1.
  - apply Qle_bool_iff in Hlh. rewrite Hlh. apply Qle_bool_iff in Hlh.
    split; [apply Qle_refl | exact Hlh].
  - destruct (Qle_bool x hi) eqn:E2.
    + apply Qle_bool_iff in E2. split; [ | exact E2 ].
      apply Qlt_le_weak. apply Qnot_le_lt. intros Hle.
      apply Qle_bool_iff in Hle. congruence.
    + split; [exact Hlh | apply Qle_refl].
Qed.

(** X1.  Every gaze vector the estimator returns has both components
    in [-1, 1], and comes with the iris centre it was computed from. *)
Theorem estimated_gaze_is_normalized :
  forall (np_sqrt : Q -> Q) (tr : EGT.t) (landmarks : list Landmark)
         (outer_idx inner_idx iris_idx : nat) (fw fh : Z) (g : Vec2) (iris : option (Q * Q)),
    EGT._get_iris_position np_sqrt tr landmarks outer_idx inner_idx iris_idx fw fh
    = Ok (Some g, iris) ->
    (-1 <= fst g /\ fst g <= 1) /\ (-1 <= snd g /\ snd g <= 1) /\ iris <> None.
Proof.
  intros np_sqrt tr landmarks oi ii ci fw fh g iris.
  unfold EGT._get_iris_position, py_index.
  repeat (cbn [bind try_except_IndexError];
          match goal with
          | |- context [nth_error ?l ?i] => destruct (nth_error l i)
          | |- context [if ?c then _ else _] => destruct c
          end);
    cbn [bind try_except_IndexError]; intros Hr; inversion Hr; subst; clear Hr;
    cbn [fst snd];
    (split; [apply clip_between; discriminate
            | split; [apply clip_between; discriminate | discriminate]]).
Qed.

Lemma estimated_gaze_is_normalized_witness :
  let landmarks := Demo.mesh 478 (Demo.left_open ++ Demo.right_open) in
  let estimate := EGT._get_iris_position Exact.sqrt Demo.tracker landmarks
                    EGT.LEFT_EYE_OUTER EGT.LEFT_EYE_INNER EGT.LEFT_IRIS_CENTER 1000 1000 in
  let g := Demo.some_or_origin (match estimate with Ok (g, _) => g | Raise _ => None end) in
  (-1 <= fst g /\ fst g <= 1) /\ (-1 <= snd g /\ snd g <= 1).
Proof.
  intros landmarks estimate g.
  assert (He : estimate
               = Ok (Some g, match estimate with Ok (_, c) => c | Raise _ => None end))
    by (vm_compute; reflexivity).
  destruct (estimated_gaze_is_normalized Exact.sqrt Demo.tracker landmarks
              EGT.LEFT_EYE_OUTER EGT.LEFT_EYE_INNER EGT.LEFT_IRIS_CENTER 1000 1000
              g _ He) as (Hx & Hy & _).
  exact (conj Hx Hy).
Defined.

(** ** Blinks *)

Lemma detect_blink_present : forall landmarks frame_height lt lb rt rb,
  nth_error landmarks EGT.LEFT_EYE_TOP = Some lt ->
  nth_error landmarks EGT.LEFT_EYE_BOTTOM = Some lb ->
  nth_error landmarks EGT.RIGHT_EYE_TOP = Some rt ->
  nth_error landmarks EGT.RIGHT_EYE_BOTTOM = Some rb ->
  EGT._detect_blink landmarks frame_height
  = Ok (Qltb (Qabs (y lb * inject_Z frame_height - y lt * inject_Z frame_height)) 5,
        Qltb (Qabs (y rb * inject_Z frame_height - y rt * inject_Z frame_height)) 5).
Proof.
  intros landmarks fh lt lb rt rb H1 H2 H3 H4.
  unfold EGT._detect_blink, py_index. rewrite H1, H2, H3, H4. reflexivity.
Qed.

(** X2.  An eye whose lids are less than 5 pixels apart is not
    estimated: the frame has no gaze vector for it and its Kalman
    filter is left as it was.  When both eyes blink the whole tracker
    is left as it was and the frame's data is the empty [GazeData()]. *)
Theorem blinking_eye_is_skipped :
  forall (np_sqrt : Q -> Q) (np_linalg_inv : matrix -> option matrix)
         (tr : EGT.t) (frame : Frame) (landmarks : list Landmark)
         (others : list (list Landmark)) (lt lb rt rb : Landmark),
    face_landmarks frame = landmarks :: others ->
    nth_error landmarks EGT.LEFT_EYE_TOP = Some lt ->
    nth_error landmarks EGT.LEFT_EYE_BOTTOM = Some lb ->
    nth_error landmarks EGT.RIGHT_EYE_TOP = Some rt ->
    nth_error landmarks EGT.RIGHT_EYE_BOTTOM = Some rb ->
    let fh := inject_Z (frame_height frame) in
    let left_gap := Qabs (y lb * fh - y lt * fh) in
    let right_gap := Qabs (y rb * fh - y rt * fh) in
    let out := EGT.process_frame np_sqrt np_linalg_inv tr frame in
    (left_gap < 5 ->
     EGT.left_kalman (fst out) = EGT.left_kalman tr
     /\ (forall gd, snd out = Ok gd -> left_gaze gd = None))
    /\ (right_gap < 5 ->
        EGT.right_kalman (fst out) = EGT.right_kalman tr
        /\ (forall gd, snd out = Ok gd -> right_gaze gd = None))
    /\ (left_gap < 5 -> right_gap < 5 -> out = (tr, Ok GazeData_default)).
Proof.
  intros np_sqrt np_linalg_inv tr frame landmarks others lt lb rt rb
         Hface H1 H2 H3 H4 fh left_gap right_gap out.
  subst out. unfold EGT.process_frame. rewrite Hface.
  rewrite (detect_blink_present _ _ _ _ _ _ H1 H2 H3 H4). fold fh left_gap right_gap.
  split; [ | split ].
  - intros Hl. apply Qltb_true in Hl. rewrite Hl. destruct (Qltb right_gap 5).
    all: unfold EGT.then_, EGT.left_eye, EGT.right_eye, EGT.combine_eyes, EGT.map_to_screen.
    all: frame_destruct np_sqrt np_linalg_inv;
      (split; [reflexivity | intros gd0 Hgd; inversion Hgd; subst; reflexivity]).
  - intros Hr. apply Qltb_true in Hr. rewrite Hr. destruct (Qltb left_gap 5).
    all: unfold EGT.then_, EGT.left_eye, EGT.right_eye, EGT.combine_eyes, EGT.map_to_screen.
    all: frame_destruct np_sqrt np_linalg_inv;
      (split; [reflexivity | intros gd0 Hgd; inversion Hgd; subst; reflexivity]).
  - intros Hl Hr. apply Qltb_true in Hl. apply Qltb_true in Hr. rewrite Hl, Hr.
    reflexivity.
Qed.

(** A mesh with both eyes closed. *)
Lemma blinking_eye_is_skipped_witness :
  let frame := Demo.frame_of (Demo.mesh 478 (Demo.left_closed ++ Demo.right_closed)) in
  Demo.process_frame Demo.tracker frame = (Demo.tracker, Ok GazeData_default).
Proof.
  intros frame.
  destruct (blinking_eye_is_skipped Exact.sqrt Exact.inv Demo.tracker frame
              (Demo.mesh 478 (Demo.left_closed ++ Demo.right_closed)) []
              (mkLandmark (320 # 1000) (414 # 1000)) (mkLandmark (320 # 1000) (416 # 1000))
              (mkLandmark (620 # 1000) (414 # 1000)) (mkLandmark (620 # 1000) (416 # 1000))
              eq_refl eq_refl eq_refl eq_refl eq_refl) as (_ & _ & Hboth).
  apply Hboth; reflexivity.
Defined.

(** ** The frame after a reset *)

Lemma kalman_update_after_reset : forall np_linalg_inv kf m,
  KF.update np_linalg_inv (KF.reset kf) m
  = (KF.with_initialized (KF.with_state (KF.reset kf) [fst m; snd m; 0; 0]) true, Ok m).
Proof. intros. reflexivity. Qed.

(** X3.  The frame processed right after [reset_filters] cannot raise,
    and nothing in it is smoothed: each eye's vector is the estimator's
    own output, the combined gaze of two eyes is their plain average,
    and the screen point is the linear mapping of the combined gaze. *)
Theorem frame_after_reset_is_unfiltered :
  forall (np_sqrt : Q -> Q) (np_linalg_inv : matrix -> option matrix)
         (tr : EGT.t) (frame : Frame),
    let landmarks := hd [] (face_landmarks frame) in
    let fw := frame_width frame in
    let fh := frame_height frame in
    exists gd,
      snd (EGT.process_frame np_sqrt np_linalg_inv (EGT.reset_filters tr) frame) = Ok gd
      /\ (forall l, left_gaze gd = Some l ->
            EGT._get_iris_position np_sqrt tr landmarks EGT.LEFT_EYE_OUTER EGT.LEFT_EYE_INNER
                                   EGT.LEFT_IRIS_CENTER fw fh
            = Ok (Some l, left_iris_center gd))
      /\ (forall r, right_gaze gd = Some r ->
            EGT._get_iris_position np_sqrt tr landmarks EGT.RIGHT_EYE_OUTER EGT.RIGHT_EYE_INNER
                                   EGT.RIGHT_IRIS_CENTER fw fh
            = Ok (Some r, right_iris_center gd))
      /\ (forall l r, left_gaze gd = Some l -> right_gaze gd = Some r ->
            combined_gaze gd = Some ((fst l + fst r) / 2, (snd l + snd r) / 2))
      /\ (forall g, combined_gaze gd = Some g ->
            screen_point gd
            = Some (py_int ((fst g + 1) / 2 * inject_Z (EGT.screen_width tr)),
                    py_int ((snd g + 1) / 2 * inject_Z (EGT.screen_height tr)))).
Proof.
  intros np_sqrt np_linalg_inv tr frame landmarks fw fh. subst landmarks fw fh.
  unfold EGT.process_frame, EGT.then_, EGT.left_eye, EGT.right_eye,
         EGT.combine_eyes, EGT.map_to_screen, EGT.reset_filters.
  repeat (frame_simpl; cbn [hd]; rewrite ?kalman_update_after_reset;
          match goal with
          | |- context [face_landmarks ?f] =>
              let E := fresh "Eface" in destruct (face_landmarks f) eqn:E
          | |- context [EGT._detect_blink ?l ?h] =>
              let E := fresh "Eblink" in
              let b := fresh "blinks" in
              destruct (detect_blink_total l h) as [b E]; rewrite E; destruct b as [[|] [|]]
          | |- context [EGT._get_iris_position np_sqrt ?t ?l ?o ?i ?c ?w ?h] =>
              lazymatch t with
              | tr => fail
              | _ => change (EGT._get_iris_position np_sqrt t l o i c w h)
                       with (EGT._get_iris_position np_sqrt tr l o i c w h)
              end
          | |- context [EGT._get_iris_position np_sqrt tr ?l ?o ?i ?c ?w ?h] =>
              let E := fresh "Eiris" in
              let r := fresh "r" in
              destruct (get_iris_position_total np_sqrt tr l o i c w h) as [r E];
              rewrite E; destruct r as [[?g|] ?iris]
          end);
    frame_simpl; cbn [hd]; rewrite ?kalman_update_after_reset; frame_simpl;
    eexists; (split; [reflexivity | ]); frame_simpl;
    repeat split; intros; try congruence;
    repeat match goal with
           | H : Some _ = Some _ |- _ => inversion H; subst; clear H
           end;
    reflexivity.
Qed.

(** A tracker that has seen a frame is reset; the next frame with both
    eyes gives the unsmoothed screen point (960, 702). *)
Lemma frame_after_reset_is_unfiltered_witness :
  let used := fst (Demo.process_frame Demo.tracker Demo.frame_left_only) in
  let out := Demo.process_frame (EGT.reset_filters used) Demo.frame_both in
  screen_point (Demo.gaze_data_of out) = Some (960, 702)%Z.
Proof.
  intros used out.
  destruct (frame_after_reset_is_unfiltered Exact.sqrt Exact.inv used Demo.frame_both)
    as (gd & Hok & _ & _ & _ & Hscreen).
  assert (E : Ok gd = Ok (Demo.gaze_data_of out)) by (rewrite <- Hok; vm_compute; reflexivity).
  assert (E' : gd = Demo.gaze_data_of out) by congruence.
  rewrite E' in Hscreen.
  rewrite (Hscreen (Demo.some_or_origin (combined_gaze (Demo.gaze_data_of out))))
    by (vm_compute; reflexivity).
  vm_compute. reflexivity.
Defined.

(** ** Screen points stay on the screen *)

Lemma linear_map_between : forall (g : Q) (w : Z),
  -1 <= g -> g <= 1 -> (0 <= w)%Z ->
  (0 <= py_int ((g + 1) / 2 * inject_Z w) <= w)%Z.
Proof.
  intros g w Hl Hh Hw. apply py_int_between.
  - rewrite Zle_Qle in Hw. change (inject_Z 0) with 0 in *.
    apply Qmult_le_0_compat; [ | exact Hw ].
    apply Qle_shift_div_l; [reflexivity | ]. lra.
  - rewrite Zle_Qle in Hw. change (inject_Z 0) with 0 in Hw.
    setoid_replace (inject_Z w) with (1 * inject_Z w) at 2 by ring.
    apply Qmult_le_compat_r; [ | exact Hw ].
    apply Qle_shift_div_r; [reflexivity | ]. lra.
Qed.

Lemma smoothing_between : forall (alpha : Q) (n p w : Z),
  0 <= alpha -> alpha <= 1 ->
  (0 <= n <= w)%Z -> (0 <= p <= w)%Z ->
  (0 <= py_int (alpha * inject_Z n + (1 - alpha) * inject_Z p) <= w)%Z.
Proof.
  intros alpha n p w Ha0 Ha1 [Hn0 Hnw] [Hp0 Hpw]. apply py_int_between.
  - rewrite Zle_Qle in Hn0, Hp0. change (inject_Z 0) with 0 in *.
    assert (H1 : 0 <= alpha * inject_Z n) by (apply Qmult_le_0_compat; assumption).
    assert (H2 : 0 <= (1 - alpha) * inject_Z p) by (apply Qmult_le_0_compat; [lra | assumption]).
    lra.
  - rewrite Zle_Qle in Hnw, Hpw.
    assert (H1 : alpha * inject_Z n <= alpha * inject_Z w).
    { rewrite !(Qmult_comm alpha). apply Qmult_le_compat_r; assumption. }
    assert (H2 : (1 - alpha) * inject_Z p <= (1 - alpha) * inject_Z w).
    { rewrite !(Qmult_comm (1 - alpha)). apply Qmult_le_compat_r; [assumption | lra]. }
    lra.
Qed.

(** X4.  With a smoothing factor in [0, 1], a combined gaze in
    [-1, 1] x [-1, 1] and a stored previous screen point (if any) on the
    screen, the frame's screen point lies in
    [0, screen_width] x [0, screen_height]: it never leaves the screen
    by more than the one pixel of the right and the bottom edge. *)
Theorem screen_point_stays_on_screen :
  forall (np_sqrt : Q -> Q) (np_linalg_inv : matrix -> option matrix)
         (tr tr' : EGT.t) (frame : Frame) (gd : GazeData) (g : Vec2),
    EGT.process_frame np_sqrt np_linalg_inv tr frame = (tr', Ok gd) ->
    combined_gaze gd = Some g ->
    -1 <= fst g -> fst g <= 1 -> -1 <= snd g -> snd g <= 1 ->
    0 <= EGT.smoothing_factor tr -> EGT.smoothing_factor tr <= 1 ->
    (0 <= EGT.screen_width tr)%Z -> (0 <= EGT.screen_height tr)%Z ->
    (forall p, EGT.prev_screen_point tr = Some p ->
               (0 <= fst p <= EGT.screen_width tr)%Z
               /\ (0 <= snd p <= EGT.screen_height tr)%Z) ->
    exists sx sy,
      screen_point gd = Some (sx, sy)
      /\ (0 <= sx <= EGT.screen_width tr)%Z
      /\ (0 <= sy <= EGT.screen_height tr)%Z.
Proof.
  intros np_sqrt np_linalg_inv tr tr' frame gd g Hframe Hgaze
         Hx0 Hx1 Hy0 Hy1 Ha0 Ha1 Hw Hh Hprev.
  revert Hframe Hgaze.
  frame_cases np_sqrt np_linalg_inv;
    intros Hframe Hgaze; inversion Hframe; subst; clear Hframe;
    frame_simpl; try discriminate; inversion Hgaze; subst; clear Hgaze;
    eexists; eexists; (split; [reflexivity | ]);
    try (split; apply linear_map_between; assumption);
    match goal with
    | H : EGT.prev_screen_point tr = Some ?p |- _ =>
        first [ destruct (Hprev p H) as [Hpx Hpy]
              | destruct (Hprev p eq_refl) as [Hpx Hpy] ]
    end;
    split; apply smoothing_between; try assumption;
    apply linear_map_between; assumption.
Qed.

(** The two-frame run: both screen points lie on the 1920 x 1080 screen. *)
Lemma screen_point_stays_on_screen_witness :
  let first := Demo.process_frame Demo.tracker Demo.frame_left_only in
  let second := Demo.process_frame (fst first) Demo.frame_right_only in
  exists sx sy,
    screen_point (Demo.gaze_data_of second) = Some (sx, sy)
    /\ (0 <= sx <= 1920)%Z /\ (0 <= sy <= 1080)%Z.
Proof.
  intros first second.
  assert (H2 : EGT.process_frame Exact.sqrt Exact.inv (fst first) Demo.frame_right_only
               = (fst second, Ok (Demo.gaze_data_of second)))
    by (vm_compute; reflexivity).
  assert (G2 : combined_gaze (Demo.gaze_data_of second)
               = Some (Demo.some_or_origin (combined_gaze (Demo.gaze_data_of second))))
    by (vm_compute; reflexivity).
  set (g := Demo.some_or_origin (combined_gaze (Demo.gaze_data_of second))) in *.
  assert (Hx0 : -1 <= fst g) by (vm_compute; discriminate).
  assert (Hx1 : fst g <= 1) by (vm_compute; discriminate).
  assert (Hy0 : -1 <= snd g) by (vm_compute; discriminate).
  assert (Hy1 : snd g <= 1) by (vm_compute; discriminate).
  assert (Ha0 : 0 <= EGT.smoothing_factor (fst first)) by (vm_compute; discriminate).
  assert (Ha1 : EGT.smoothing_factor (fst first) <= 1) by (vm_compute; discriminate).
  assert (W : EGT.screen_width (fst first) = 1920%Z) by (vm_compute; reflexivity).
  assert (H : EGT.screen_height (fst first) = 1080%Z) by (vm_compute; reflexivity).
  assert (P : EGT.prev_screen_point (fst first) = Some (1152, 831)%Z)
    by (vm_compute; reflexivity).
  destruct (screen_point_stays_on_screen Exact.sqrt Exact.inv (fst first) (fst second)
              Demo.frame_right_only (Demo.gaze_data_of second) g H2 G2
              Hx0 Hx1 Hy0 Hy1 Ha0 Ha1)
    as (sx & sy & Hs & Hsx & Hsy).
  - rewrite W. lia.
  - rewrite H. lia.
  - intros p Hp. rewrite P in Hp. rewrite W, H.
    assert (Ep : p = (1152, 831)%Z) by congruence.
    rewrite Ep. cbn [fst snd]. lia.
  - rewrite W in Hsx. rewrite H in Hsy. exists sx, sy. auto.
Defined.

(** * Further properties of the filters *)

Lemma smoothstep_unit : forall t : Q, 0 <= t -> t <= 1 ->
  0 <= t * t * (3 - 2 * t) /\ t * t * (3 - 2 * t) <= 1.
Proof.
  intros t H0 H1. split.
  - apply Qmult_le_0_compat; [apply Qmult_le_0_compat; assumption | lra].
  - assert (Hs : 0 <= (1 - t) * (1 - t) * (1 + 2 * t)).
    { apply Qmult_le_0_compat; [apply Qmult_le_0_compat; lra | lra]. }
    setoid_replace (t * t * (3 - 2 * t)) with (1 - (1 - t) * (1 - t) * (1 + 2 * t)) by ring.
    lra.
Qed.

Lemma blend_between : forall d r s : Q, 0 <= s -> s <= 1 ->
  (r <= d -> r <= d + s * (r - d) /\ d + s * (r - d) <= d)
  /\ (d <= r -> d <= d + s * (r - d) /\ d + s * (r - d) <= r).
Proof.
  intros d r s H0 H1. split; intros Hrd.
  - assert (Ha : 0 <= s * (d - r)) by (apply Qmult_le_0_compat; lra).
    assert (Hb : 0 <= (1 - s) * (d - r)) by (apply Qmult_le_0_compat; lra).
    split.
    + setoid_replace (d + s * (r - d)) with (r + (1 - s) * (d - r)) by ring. lra.
    + setoid_replace (d + s * (r - d)) with (d - s * (d - r)) by ring. lra.
  - assert (Ha : 0 <= s * (r - d)) by (apply Qmult_le_0_compat; lra).
    assert (Hb : 0 <= (1 - s) * (r - d)) by (apply Qmult_le_0_compat; lra).
    split.
    + lra.
    + setoid_replace (d + s * (r - d)) with (r - (1 - s) * (r - d)) by ring. lra.
Qed.

(** X5.  With thresholds [low < high] the multiplier of the
    measurement noise never leaves the interval between the rapid and
    the dwell multiplier, whatever the velocity. *)
Theorem measurement_multiplier_between :
  forall (np_sqrt : Q -> Q) (kf : AKF.t),
    let dwell := AKF.dwell_measurement_multiplier kf in
    let rapid := AKF.rapid_measurement_multiplier kf in
    let multiplier := AKF.measurement_multiplier np_sqrt kf in
    AKF.low_velocity_threshold kf < AKF.high_velocity_threshold kf ->
    (rapid <= dwell -> rapid <= multiplier /\ multiplier <= dwell)
    /\ (dwell <= rapid -> dwell <= multiplier /\ multiplier <= rapid).
Proof.
  intros np_sqrt kf dwell rapid multiplier Hlh.
  subst multiplier. unfold AKF.measurement_multiplier. fold dwell rapid.
  set (v := AKF._get_smoothed_velocity np_sqrt kf).
  set (low := AKF.low_velocity_threshold kf) in *.
  set (high := AKF.high_velocity_threshold kf) in *.
  destruct (Qleb v low) eqn:E1.
  - split; intros H; split; (exact H || apply Qle_refl).
  - destruct (Qleb high v) eqn:E2.
    + split; intros H; split; (exact H || apply Qle_refl).
    + apply Qleb_false in E1. apply Qleb_false in E2. cbv zeta.
      set (t := (v - low) / (high - low)).
      assert (Ht0 : 0 <= t) by (apply Qle_shift_div_l; lra).
      assert (Ht1 : t <= 1) by (apply Qle_shift_div_r; lra).
      destruct (smoothstep_unit t Ht0 Ht1) as [Hs0 Hs1].
      apply blend_between; assumption.
Qed.

Lemma measurement_multiplier_between_witness :
  let m := AKF.measurement_multiplier Exact.sqrt (Demo.adaptive_at (85 # 1000)) in
  3 # 10 <= m /\ m <= 3.
Proof.
  intros m.
  destruct (measurement_multiplier_between Exact.sqrt (Demo.adaptive_at (85 # 1000)) eq_refl)
    as [H _].
  apply H. discriminate.
Defined.

(** X6.  The process noise the adaptive filter schedules is its base
    process noise times a factor clipped to [0.5, 2]: for a base noise
    that is not negative it lies between half and twice the base, and
    [Q] is the identity scaled by it. *)
Theorem process_noise_between :
  forall (np_sqrt : Q -> Q) (kf : AKF.t),
    let out := AKF._get_adaptive_process_noise np_sqrt kf in
    let base := AKF.base_process_noise kf in
    0 <= base ->
    base * (1 # 2) <= AKF.current_process_noise (fst out)
    /\ AKF.current_process_noise (fst out) <= base * 2
    /\ snd out = Np.mscale (Np.eye 4) (AKF.current_process_noise (fst out)).
Proof.
  intros np_sqrt kf out base Hb. subst out. unfold AKF._get_adaptive_process_noise.
  cbn [fst snd AKF.current_process_noise AKF.with_current_process_noise]. fold base.
  set (f := Np.clip _ (1 # 2) 2).
  destruct (clip_between (AKF._get_smoothed_velocity np_sqrt kf / AKF.high_velocity_threshold kf)
              (1 # 2) 2) as [Hl Hh]; [discriminate | ].
  fold f in Hl, Hh.
  split; [ | split; [ | reflexivity ] ].
  - rewrite !(Qmult_comm base). apply Qmult_le_compat_r; assumption.
  - rewrite !(Qmult_comm base). apply Qmult_le_compat_r; assumption.
Qed.

Lemma process_noise_between_witness :
  let out := AKF._get_adaptive_process_noise Exact.sqrt (Demo.adaptive_at (85 # 1000)) in
  (1 # 10000) * (1 # 2) <= AKF.current_process_noise (fst out)
  /\ AKF.current_process_noise (fst out) <= (1 # 10000) * 2.
Proof.
  intros out.
  destruct (process_noise_between Exact.sqrt (Demo.adaptive_at (85 # 1000)))
    as (Hl & Hh & _); [discriminate | ].
  exact (conj Hl Hh).
Defined.

(** The parts of a [KalmanFilter2D] that no method assigns. *)
Lemma kalman_constant_parts : forall np_linalg_inv kf,
  kalman_reachable np_linalg_inv kf ->
  KF.F kf = KF.F_cv /\ KF.H kf = KF.H_pos
  /\ KF.Qn kf = Np.mscale (Np.eye 4) (KF.base_process_noise kf)
  /\ KF.R kf = Np.mscale (Np.eye 2) (KF.base_measurement_noise kf).
Proof.
  intros inv kf Hr.
  induction Hr as [q r | kf Hr IH | kf m Hr IH | kf Hr IH].
  - repeat split; reflexivity.
  - unfold KF.predict. destruct (negb (KF.initialized kf)); cbn; exact IH.
  - unfold KF.update, KF.predict.
    destruct (negb (KF.initialized kf)); cbn; [exact IH | ].
    destruct (inv _); cbn; exact IH.
  - cbn. exact IH.
Qed.

(** X7.  [reset] puts a [KalmanFilter2D] back into exactly the state
    its constructor gives it for the same two noise parameters. *)
Theorem reset_is_a_fresh_filter :
  forall (np_linalg_inv : matrix -> option matrix) (kf : KF.t),
    kalman_reachable np_linalg_inv kf ->
    KF.reset kf = KF.init (KF.base_process_noise kf) (KF.base_measurement_noise kf).
Proof.
  intros inv kf Hr.
  destruct (kalman_constant_parts inv kf Hr) as (HF & HH & HQ & HR).
  unfold KF.reset, KF.init, KF.with_initialized, KF.with_P, KF.with_state. cbn.
  rewrite HF, HH, HQ, HR. reflexivity.
Qed.

Lemma reset_is_a_fresh_filter_witness :
  let kf := fst (KF.update Exact.inv
                   (fst (KF.update Exact.inv (KF.init 1 1) (0, 0))) (4, 8)) in
  KF.reset kf = KF.init 1 1.
Proof.
  intros kf.
  assert (Hr : kalman_reachable Exact.inv kf) by apply kalman_update, kalman_update, kalman_init.
  rewrite (reset_is_a_fresh_filter Exact.inv kf Hr). vm_compute. reflexivity.
Defined.

(** ** A measurement that agrees with the prediction *)

Lemma matmul_length : forall A B, List.length (Np.matmul A B) = List.length A.
Proof. intros A B. unfold Np.matmul. apply length_map. Qed.

Lemma vdot_zero_r : forall r v,
  Forall (fun e => e == 0) v -> Np.vdot r v == 0.
Proof.
  intros r v Hv. revert r.
  induction Hv as [ | e v He _ IH ]; intros [ | a r ]; try reflexivity.
  unfold Np.vdot in *. cbn. rewrite He. specialize (IH r). cbn in IH. rewrite IH. ring.
Qed.

Lemma matvec_zero : forall K v,
  Forall (fun e => e == 0) v -> Forall (fun e => e == 0) (Np.matvec K v).
Proof.
  intros K v Hv. unfold Np.matvec. apply Forall_map.
  apply Forall_forall. intros r _. apply vdot_zero_r. exact Hv.
Qed.

Lemma vadd_zero_nth : forall s z i,
  Forall (fun e => e == 0) z ->
  (i < List.length s)%nat -> (i < List.length z)%nat ->
  nth i (Np.vadd s z) 0 == nth i s 0.
Proof.
  intros s z i Hz. revert s i.
  induction Hz as [ | e z He _ IH ]; intros [ | a s ] i Hs Hl; cbn in *; try lia.
  destruct i as [ | i ].
  - rewrite He. ring.
  - apply (IH s i); lia.
Qed.

(** X8.  When the measurement is the position the filter predicts,
    [update] hands it back and keeps the predicted velocity: the
    correction of the state vanishes, whatever the gain. *)
Theorem agreeing_measurement_passes_through :
  forall (np_linalg_inv : matrix -> option matrix) (kf kf' : KF.t) (m r : Vec2),
    kalman_reachable np_linalg_inv kf ->
    KF.initialized kf = true ->
    let predicted := KF.state (fst (KF.predict kf)) in
    fst m == nth 0 predicted 0 ->
    snd m == nth 1 predicted 0 ->
    KF.update np_linalg_inv kf m = (kf', Ok r) ->
    fst r == fst m /\ snd r == snd m
    /\ nth 2 (KF.state kf') 0 == nth 2 predicted 0
    /\ nth 3 (KF.state kf') 0 == nth 3 predicted 0.
Proof.
  intros inv kf kf' m r Hr Hi predicted Hm0 Hm1 Hu.
  destruct (kalman_constant_parts inv kf Hr) as (HF & HH & HQ & _).
  assert (Hpred : fst (KF.predict kf)
                  = KF.with_P (KF.with_state kf (Np.matvec (KF.F kf) (KF.state kf)))
                      (Np.madd (Np.matmul (Np.matmul (KF.F kf) (KF.P kf))
                                          (Np.transpose (KF.F kf))) (KF.Qn kf))).
  { unfold KF.predict. rewrite Hi. reflexivity. }
  set (kf1 := fst (KF.predict kf)) in *.
  assert (HH1 : KF.H kf1 = KF.H_pos) by (rewrite Hpred; exact HH).
  assert (Hlen : List.length predicted = 4%nat).
  { subst predicted. rewrite Hpred. cbn [KF.state KF.with_P KF.with_state].
    rewrite HF. reflexivity. }
  assert (HP1 : List.length (KF.P kf1) = 4%nat).
  { rewrite Hpred. cbn [KF.P KF.with_P]. rewrite HF, HQ. reflexivity. }
  revert Hu. unfold KF.update. rewrite Hi. cbn [negb]. cbv zeta. fold kf1.
  destruct (inv _) as [S_inv | ]; [ | intros Hu; discriminate Hu ].
  set (K := Np.matmul (Np.matmul (KF.P kf1) (Np.transpose (KF.H kf1))) S_inv).
  set (innovation := Np.vsub (vec_of m) (Np.matvec (KF.H kf1) (KF.state kf1))).
  intros Hu. inversion Hu; subst kf' r; clear Hu.
  cbn [KF.state KF.with_P KF.with_state position fst snd].
  fold predicted.
  assert (Hinn : Forall (fun e => e == 0) innovation).
  { subst innovation. rewrite HH1. fold predicted.
    destruct predicted as [ | p0 [ | p1 [ | p2 [ | p3 [ | ] ] ] ] ]; try discriminate Hlen.
    cbn in Hm0, Hm1. unfold vec_of, Np.vsub, Np.matvec, KF.H_pos, Np.vdot. cbn.
    repeat constructor; [rewrite Hm0 | rewrite Hm1]; ring. }
  assert (HK : List.length (Np.matvec K innovation) = 4%nat).
  { unfold Np.matvec. rewrite length_map. subst K. rewrite !matmul_length. exact HP1. }
  pose proof (matvec_zero K innovation Hinn) as Hz.
  repeat split.
  - rewrite vadd_zero_nth by (try exact Hz; lia). symmetry. exact Hm0.
  - rewrite vadd_zero_nth by (try exact Hz; lia). symmetry. exact Hm1.
  - apply vadd_zero_nth; [exact Hz | lia | lia].
  - apply vadd_zero_nth; [exact Hz | lia | lia].
Qed.

(** The unit-noise filter started at (4, 8) predicts (4, 8) again. *)
Lemma agreeing_measurement_passes_through_witness :
  let kf := fst (KF.update Exact.inv (KF.init 1 1) (4, 8)) in
  let out := KF.update Exact.inv kf (4, 8) in
  let r := match snd out with Ok r => r | Raise _ => (0, 0) end in
  snd out = Ok r /\ fst r == 4 /\ snd r == 8.
Proof.
  intros kf out r.
  assert (Hr : kalman_reachable Exact.inv kf) by apply kalman_update, kalman_init.
  assert (Hi : KF.initialized kf = true) by reflexivity.
  assert (H0 : fst (4, 8) == nth 0 (KF.state (fst (KF.predict kf))) 0)
    by (vm_compute; reflexivity).
  assert (H1 : snd (4, 8) == nth 1 (KF.state (fst (KF.predict kf))) 0)
    by (vm_compute; reflexivity).
  assert (Hu : out = (fst out, Ok r)) by (vm_compute; reflexivity).
  assert (Hs : snd out = Ok r) by (vm_compute; reflexivity).
  clearbody r. subst out. clearbody kf.
  destruct (agreeing_measurement_passes_through Exact.inv kf _ (4, 8) _ Hr Hi H0 H1 Hu)
    as (Hx & Hy & _).
  exact (conj Hs (conj Hx Hy)).
Defined.
